(** * DBTeleBot: the ingestion and publication pipeline

    A shallow embedding of [database.py], [wiki_client.py],
    [ollama_client.py] and the message processing of [main.py], followed
    by the properties of the pipeline that the specification states.

    Conventions of the embedding.
    - A Python [str] is a [string] holding its UTF-8 bytes.  The only
      characters the code searches for are ASCII, so byte offsets and
      code-point offsets select the same substrings.
    - A method that catches every exception and returns [None] or
      [False] is a total function returning [option] or [bool]; the state
      it leaves behind is returned next to the result.
    - Logging is not modelled.  The collaborators reached over the network
      (the chat platform, the analysis service, the wiki) are oracles: the
      functions are parametric in what they answer. *)

From Stdlib Require Import String Ascii ZArith List Bool Lia Sorted.
From Stdlib Require Import DecimalString DecimalZ DecimalPos.
From stdpp Require Import gmap strings list.
Import ListNotations.

#[local] Open Scope string_scope.
#[local] Open Scope Z_scope.
#[local] Set Warnings "-register-all".

(** ** Python values and string operations *)

Module Py.

(** The double quote and the line feed, as one-character strings. *)
Definition dq : string := String "034"%char EmptyString.
Definition nl : string := String "010"%char EmptyString.

(** [str(n)] for a Python [int]. *)
Definition str_of_int (n : Z) : string := NilZero.string_of_int (Z.to_int n).

(** [len(s)]. *)
Definition len (s : string) : Z := Z.of_nat (String.length s).

Fixpoint find_from (c : ascii) (s : string) (i : Z) : Z :=
  match s with
  | EmptyString => -1
  | String a s' => if Ascii.eqb a c then i else find_from c s' (i + 1)
  end.

(** [s.find(c)]: the lowest index of [c] in [s], [-1] when there is none. *)
Definition find (c : ascii) (s : string) : Z := find_from c s 0.

Fixpoint rfind_from (c : ascii) (s : string) (i last : Z) : Z :=
  match s with
  | EmptyString => last
  | String a s' => rfind_from c s' (i + 1) (if Ascii.eqb a c then i else last)
  end.

(** [s.rfind(c)]: the highest index of [c] in [s], [-1] when there is none. *)
Definition rfind (c : ascii) (s : string) : Z := rfind_from c s 0 (-1).

(** A slice bound: negative bounds count from the end, and the result is
    clamped to [0 .. len s]. *)
Definition clamp (s : string) (i : Z) : Z :=
  let n := len s in
  let j := if i <? 0 then i + n else i in
  Z.max 0 (Z.min j n).

(** [s[start:stop]]; [None] is an omitted bound. *)
Definition slice (s : string) (start stop : option Z) : string :=
  let lo := match start with Some i => clamp s i | None => 0 end in
  let hi := match stop with Some i => clamp s i | None => len s end in
  substring (Z.to_nat lo) (Z.to_nat (hi - lo)) s.

(** [c.isspace()] on the ASCII range: TAB, LF, VT, FF, CR, the four
    separators FS..US and the space.  The whitespace characters outside
    ASCII are sequences of bytes above 127 and are not recognised. *)
Definition isspace (c : ascii) : bool :=
  let n := nat_of_ascii c in
  ((9 <=? n)%nat && (n <=? 13)%nat) || ((28 <=? n)%nat && (n <=? 32)%nat).

Fixpoint lstrip (s : string) : string :=
  match s with
  | EmptyString => EmptyString
  | String a s' => if isspace a then lstrip s' else s
  end.

Fixpoint rstrip (s : string) : string :=
  match s with
  | EmptyString => EmptyString
  | String a s' =>
      match rstrip s' with
      | EmptyString => if isspace a then EmptyString else String a EmptyString
      | r => String a r
      end
  end.

(** [s.strip()]. *)
Definition strip (s : string) : string := lstrip (rstrip s).

(** [s.startswith(p)] and [s.endswith(p)]. *)
Definition startswith (p s : string) : bool := String.prefix p s.

Definition endswith (p s : string) : bool :=
  let n := String.length s in
  let k := String.length p in
  (k <=? n)%nat && String.eqb (substring (n - k) k s) p.

(** [sep.join(l)]. *)
Fixpoint join (sep : string) (l : list string) : string :=
  match l with
  | [] => EmptyString
  | [x] => x
  | x :: rest => x ++ sep ++ join sep rest
  end.

(** The values [json.loads] produces. *)
Inductive json : Type :=
| JNull
| JBool (b : bool)
| JInt (n : Z)
| JFloat (literal : string)
| JStr (s : string)
| JArr (items : list json)
| JObj (fields : list (string * json)).

(** A [dict] with [str] keys, in insertion order. *)
Definition dict : Type := list (string * json).

Fixpoint dict_lookup (k : string) (d : dict) : option json :=
  match d with
  | [] => None
  | (k', v) :: d' => if String.eqb k' k then Some v else dict_lookup k d'
  end.

(** [d.get(k, default)]. *)
Definition dict_get (d : dict) (k : string) (default : json) : json :=
  match dict_lookup k d with
  | Some v => v
  | None => default
  end.

(** Truth value of a [dict]: an empty one is false. *)
Definition truthy (d : dict) : bool :=
  match d with
  | [] => false
  | _ => true
  end.

(** Whether [c] is one of the characters of [chars]. *)
Fixpoint char_in (c : ascii) (chars : string) : bool :=
  match chars with
  | EmptyString => false
  | String a rest => Ascii.eqb a c || char_in c rest
  end.

(** [s.rstrip(chars)]: the trailing characters that belong to [chars]
    are removed. *)
Fixpoint rstrip_chars (chars : string) (s : string) : string :=
  match s with
  | EmptyString => EmptyString
  | String a s' =>
      match rstrip_chars chars s' with
      | EmptyString => if char_in a chars then EmptyString else String a EmptyString
      | r => String a r
      end
  end.

(** [s.replace(old, new)] for a pattern [old] that is not empty: the
    text is read from the left, every occurrence found is replaced and
    reading goes on after it.  [skip] counts the characters of an
    occurrence still to be passed over. *)
Fixpoint replace_from (old new : string) (skip : nat) (s : string) : string :=
  match s with
  | EmptyString => EmptyString
  | String a s' =>
      match skip with
      | S k => replace_from old new k s'
      | O =>
          if String.prefix old s
          then new ++ replace_from old new (String.length old - 1) s'
          else String a (replace_from old new O s')
      end
  end.

Definition replace (old new : string) (s : string) : string :=
  replace_from old new O s.

End Py.

(** ** database.py: the table of messages *)

Module Database.

(** A row of the table [messages].  The surrogate key [id] and the two
    timestamps [created_at] and [updated_at] are left out: no operation
    of the class reads them. *)
Record Message : Type := {
  message_id : Z;
  chat_id : Z;
  user_id : Z;
  text : option string;
  date : string;
  is_processed : bool;
  wiki_page : option string;
  analysis : option string
}.

(** The table, in insertion order. *)
Definition table : Type := list Message.

(** [select(Message).filter_by(message_id=...)]. *)
Definition filter_by_message_id (mid : Z) (db : table) : list Message :=
  List.filter (fun r => message_id r =? mid) db.

(** [scalar_one_or_none()] returns the only row, [None] when there is
    none, and raises [MultipleResultsFound] otherwise. *)
Inductive scalar : Type :=
| NoRow
| OneRow (r : Message)
| MultipleResultsFound.

Definition scalar_one_or_none (rows : list Message) : scalar :=
  match rows with
  | [] => NoRow
  | [r] => OneRow r
  | _ => MultipleResultsFound
  end.

Definition set_processed (wiki : string) (r : Message) : Message :=
  {| message_id := message_id r; chat_id := chat_id r; user_id := user_id r;
     text := text r; date := date r;
     is_processed := true; wiki_page := Some wiki;
     analysis := analysis r |}.

(** The invariant of the table: one row per [message_id], and a page is
    recorded exactly on the processed rows. *)
Definition key_iff_processed (r : Message) : Prop :=
  wiki_page r <> None <-> is_processed r = true.

Definition ledger_inv (db : table) : Prop :=
  List.NoDup (map message_id db) /\ List.Forall key_iff_processed db.

Section Operations.

(** [json.dumps], used for the [analysis] column. *)
Variable json_dumps : Py.dict -> string.

(** [add_message]: the existing row when there is one, otherwise a new
    row with the column defaults [is_processed = False] and
    [wiki_page = NULL].  An exception gives [None]. *)
Definition add_message (db : table) (mid chat user : Z) (txt : option string)
    (dt : string) (an : option Py.dict) : option Message * table :=
  match scalar_one_or_none (filter_by_message_id mid db) with
  | MultipleResultsFound => (None, db)
  | OneRow existing_message => (Some existing_message, db)
  | NoRow =>
      let message :=
        {| message_id := mid; chat_id := chat; user_id := user;
           text := txt; date := dt;
           is_processed := false; wiki_page := None;
           analysis := match an with
                       | Some a => if Py.truthy a then Some (json_dumps a) else None
                       | None => None
                       end |} in
      (Some message, (db ++ [message])%list)
  end.

(** [get_unprocessed_messages]. *)
Definition get_unprocessed_messages (db : table) : list Message :=
  List.filter (fun r => negb (is_processed r)) db.

(** [mark_message_as_processed]: when the row exists, sets the flag and
    the page and returns [True]; otherwise [False]. *)
Definition mark_message_as_processed (db : table) (mid : Z) (wiki : string)
    : bool * table :=
  match scalar_one_or_none (filter_by_message_id mid db) with
  | OneRow _ =>
      (true, map (fun r => if message_id r =? mid then set_processed wiki r else r) db)
  | NoRow => (false, db)
  | MultipleResultsFound => (false, db)
  end.

(** [get_processed_messages]: the ids of the processed rows. *)
Definition get_processed_messages (db : table) : list Z :=
  map message_id (List.filter is_processed db).

End Operations.

End Database.

(** ** wiki_client.py: the publication target *)

Module Wiki.

(** The client and the wiki behind it.  [site] is [None] until [setup]
    has connected; once connected it holds the pages of the wiki, title
    to text.  [requests] counts the saves attempted and [saved] lists the
    saves that went through, oldest first, as (title, text, summary). *)
Record WikiClient : Type := {
  site : option (gmap string string);
  requests : nat;
  saved : list (string * string * string)
}.

(** The text of a page, as a reader of the wiki sees it. *)
Definition page_text (w : WikiClient) (title : string) : option string :=
  match site w with
  | Some pages => pages !! title
  | None => None
  end.

Section Operations.

(** Whether the wiki answers the n-th save; when it does not, the
    exception is caught by the method and the page is left as it was. *)
Variable api_ok : nat -> bool.

(** [page.save(text, summary)] inside the [try] block of a method. *)
Definition page_save (w : WikiClient) (pages : gmap string string)
    (title content summary : string) : bool * WikiClient :=
  if api_ok (requests w)
  then (true, {| site := Some (<[title := content]> pages);
                 requests := S (requests w);
                 saved := (saved w ++ [(title, content, summary)])%list |})
  else (false, {| site := Some pages;
                  requests := S (requests w);
                  saved := saved w |}).

Definition create_page (w : WikiClient) (title content : string)
    (categories : option (list string)) : bool * WikiClient :=
  match site w with
  | None => (false, w)
  | Some pages =>
      let content :=
        match categories with
        | Some ((_ :: _) as cats) =>
            content ++ Py.nl ++ Py.nl ++ "[[Category:"
              ++ Py.join ("]]" ++ Py.nl ++ "[[Category:") cats ++ "]]"
        | _ => content
        end in
      page_save w pages title content "Создание страницы ботом"
  end.

Definition edit_page (w : WikiClient) (title content : string) (append : bool)
    : bool * WikiClient :=
  match site w with
  | None => (false, w)
  | Some pages =>
      match pages !! title with
      | None => create_page w title content None
      | Some current_content =>
          let new_content :=
            if append then current_content ++ Py.nl ++ Py.nl ++ content
            else content in
          page_save w pages title new_content "Обновление страницы ботом"
      end
  end.

End Operations.

(** The domain [setup] connects to:
    [wiki_url.replace('https://', '').replace('http://', '')]. *)
Definition domain_of (wiki_url : string) : string :=
  Py.replace "http://" EmptyString (Py.replace "https://" EmptyString wiki_url).

Section Setup.

(** [mwclient.Site(domain, path=..., scheme=...)]: the pages of the wiki
    reached, or [None] when the connection raises. *)
Variable connect : string -> string -> string -> option (gmap string string).

(** [site.login(username, password)]: [false] when it raises. *)
Variable login : string -> string -> bool.

(** [setup].  The fields [username], [password] and [wiki_url] it fills
    are read by no method and are left out. *)
Definition setup (w : WikiClient) (username password wiki_url : string)
    : bool * WikiClient :=
  match connect (domain_of wiki_url) "/" "https" with
  | None => (false, w)
  | Some pages =>
      let w' := {| site := Some pages; requests := requests w; saved := saved w |} in
      if login username password then (true, w') else (false, w')
  end.

End Setup.

End Wiki.

(** ** ollama_client.py: the analysis gateway *)

Module Ollama.

(** What [session.post] and [response.json()] give: the request raises,
    or a status comes back with a body that is JSON ([Some]) or not. *)
Inductive http_reply : Type :=
| TransportError
| Reply (status : Z) (body : option Py.json).

(** [session] tells whether the HTTP session is open; [posted] lists the
    prompts sent to [/api/generate], oldest first. *)
Record OllamaClient : Type := {
  session : bool;
  posted : list string
}.

Definition prompt_head : string :=
  "Проанализируй следующий текст и верни результат в формате JSON:"
  ++ Py.nl ++ "            {"
  ++ Py.nl ++ "                " ++ Py.dq ++ "title" ++ Py.dq ++ ": " ++ Py.dq ++ "Краткий заголовок (до 5 слов)" ++ Py.dq ++ ","
  ++ Py.nl ++ "                " ++ Py.dq ++ "summary" ++ Py.dq ++ ": " ++ Py.dq ++ "Краткое описание (1-2 предложения)" ++ Py.dq ++ ","
  ++ Py.nl ++ "                " ++ Py.dq ++ "categories" ++ Py.dq ++ ": [" ++ Py.dq ++ "категория1" ++ Py.dq ++ ", " ++ Py.dq ++ "категория2" ++ Py.dq ++ "],"
  ++ Py.nl ++ "                " ++ Py.dq ++ "tags" ++ Py.dq ++ ": [" ++ Py.dq ++ "тег1" ++ Py.dq ++ ", " ++ Py.dq ++ "тег2" ++ Py.dq ++ "]"
  ++ Py.nl ++ "            }"
  ++ Py.nl
  ++ Py.nl ++ "            Текст для анализа:"
  ++ Py.nl ++ "            ".

Definition prompt_tail : string :=
  Py.nl
  ++ Py.nl ++ "            Верни ТОЛЬКО JSON, без дополнительного текста.".

(** The f-string [prompt]. *)
Definition prompt (text : string) : string := prompt_head ++ text ++ prompt_tail.

Section Operations.

(** The answer of the service to the n-th POST, given its prompt. *)
Variable generate : nat -> string -> http_reply.

(** [json.loads] on the cleaned text: the dictionary, or [None] when it
    raises.  The text it receives is empty or starts with a brace, so a
    value it returns is a dictionary. *)
Variable json_loads : string -> option Py.dict.

(** The second half of [analyze_text]: from the text of the model to the
    parsed dictionary. *)
Definition extract_json (response_text : string) : option Py.dict :=
  let json_start := Py.find "{" response_text in
  let json_end := Py.rfind "}" response_text + 1 in
  if (json_start =? -1) || (json_end =? 0) then None
  else
    let json_text := Py.slice response_text (Some json_start) (Some json_end) in
    let json_text := Py.strip json_text in
    let json_text :=
      if Py.startswith "```json" json_text
      then Py.slice json_text (Some 7) None else json_text in
    let json_text :=
      if Py.endswith "```" json_text
      then Py.slice json_text None (Some (-3)) else json_text in
    let json_text := Py.strip json_text in
    json_loads json_text.

(** [analyze_text].  [text] is [None] when the caller passes Python's
    [None]: [len(text)] then raises before anything is sent. *)
Definition analyze_text (c : OllamaClient) (text : option string)
    : option Py.dict * OllamaClient :=
  match text with
  | None => (None, c)
  | Some text =>
      if negb (session c) then (None, c)
      else
        let c' := {| session := true; posted := (posted c ++ [prompt text])%list |} in
        match generate (length (posted c)) (prompt text) with
        | TransportError => (None, c')
        | Reply status body =>
            if negb (status =? 200) then (None, c')
            else
              match body with
              | Some (Py.JObj result) =>
                  match Py.dict_lookup "response" result with
                  | None => (extract_json EmptyString, c')
                  | Some (Py.JStr response_text) => (extract_json response_text, c')
                  | Some _ => (None, c')
                  end
              | _ => (None, c')
              end
        end
  end.

End Operations.

(** [__init__]: [self.base_url = url.rstrip('/')]. *)
Definition base_url (url : string) : string := Py.rstrip_chars "/" url.

(** How [setup] ends: it returns [True], or raises [ValueError] (the
    model is not listed), [ConnectionError] (the status is not 200) or
    another exception. *)
Inductive setup_outcome : Type :=
| Ready
| ModelNotFound
| BadStatus (status : Z)
| SetupRaised.

(** [any(model['name'] == self.model for model in ...)] over the entries
    of the list: [None] when an entry read before a match is no
    dictionary or has no [name]. *)
Fixpoint any_named (model : string) (entries : list Py.json) : option bool :=
  match entries with
  | [] => Some false
  | Py.JObj d :: rest =>
      match Py.dict_lookup "name" d with
      | None => None
      | Some (Py.JStr name) =>
          if String.eqb name model then Some true else any_named model rest
      | Some _ => any_named model rest
      end
  | _ :: _ => None
  end.

(** [setup]: a session is opened and [/api/tags] is read; [tags] is what
    the service answers.  When the method raises, the session has been
    closed first. *)
Definition setup (tags : http_reply) (model : string) (c : OllamaClient)
    : setup_outcome * OllamaClient :=
  let opened := {| session := true; posted := posted c |} in
  let closed := {| session := false; posted := posted c |} in
  match tags with
  | TransportError => (SetupRaised, closed)
  | Reply status body =>
      if status =? 200 then
        match body with
        | Some (Py.JObj models) =>
            match Py.dict_get models "models" (Py.JArr []) with
            | Py.JArr entries =>
                match any_named model entries with
                | Some true => (Ready, opened)
                | Some false => (ModelNotFound, closed)
                | None => (SetupRaised, closed)
                end
            | Py.JObj [] => (ModelNotFound, closed)
            | Py.JStr EmptyString => (ModelNotFound, closed)
            | _ => (SetupRaised, closed)
            end
        | _ => (SetupRaised, closed)
        end
      else (BadStatus status, closed)
  end.

(** [close]. *)
Definition close (c : OllamaClient) : OllamaClient :=
  {| session := false; posted := posted c |}.

End Ollama.

(** ** main.py: the two processing paths *)

Module Main.

(** A message as Telethon hands it over.  [text] is [None] for messages
    that carry no text at all; [date] is the rendering of the timestamp;
    [out] marks the messages sent by the account itself. *)
Record TgMessage : Type := {
  id : Z;
  chat_id : Z;
  sender_id : Z;
  text : option string;
  date : string;
  out : bool
}.

(** The collaborators held by [TelegramUserClient]. *)
Record TelegramUserClient : Type := {
  db : Database.table;
  wiki_client : Wiki.WikiClient;
  ollama_client : Ollama.OllamaClient
}.

(** The state of the history loop of [setup]: the client, the two
    counters, and every [get_messages] request made so far with the
    [offset_id] asked and the answer ([None] when the request raised). *)
Record History : Type := {
  bot : TelegramUserClient;
  total_processed : nat;
  total_skipped : nat;
  fetched : list (Z * option (list TgMessage))
}.

(** [limit = 100]. *)
Definition limit : Z := 100.

(** The default of [analysis.get('title', ...)]. *)
Definition default_title (mid : Z) : string := "Сообщение_" ++ Py.str_of_int mid.

(** A [str] field formatted in an f-string. *)
Definition format_text (t : option string) : string :=
  match t with
  | Some s => s
  | None => "None"
  end.

(** Truth value of [message.text]. *)
Definition has_text (t : option string) : bool :=
  match t with
  | None => false
  | Some EmptyString => false
  | Some _ => true
  end.

Section Pipeline.

Variable json_dumps : Py.dict -> string.
Variable api_ok : nat -> bool.
Variable generate : nat -> string -> Ollama.http_reply.
Variable json_loads : string -> option Py.dict.

(** The text Python makes of a title that is not a [str], in f-strings
    and as a page name. *)
Variable format_value : Py.json -> string.

(** The n-th [client.get_messages(limit=..., offset_id=...)]: the page,
    or [None] when the request raises. *)
Variable get_messages : nat -> Z -> Z -> option (list TgMessage).

Definition format (v : Py.json) : string :=
  match v with
  | Py.JStr s => s
  | _ => format_value v
  end.

(** [title = analysis.get('title', f"Сообщение_{message.id}")]. *)
Definition page_title (analysis : Py.dict) (mid : Z) : Py.json :=
  Py.dict_get analysis "title" (Py.JStr (default_title mid)).

(** The page content built from the title and the message. *)
Definition page_content (title : Py.json) (message : TgMessage) : string :=
  "## " ++ format title ++ Py.nl ++ Py.nl ++ format_text (text message) ++ Py.nl ++ Py.nl
  ++ "### Метаданные" ++ Py.nl
  ++ "- Дата: " ++ date message ++ Py.nl
  ++ "- Автор: " ++ Py.str_of_int (sender_id message) ++ Py.nl
  ++ "- ID сообщения: " ++ Py.str_of_int (id message) ++ Py.nl.

(** [handle_message]: the handler of new messages. *)
Definition handle_message (b : TelegramUserClient) (event : TgMessage)
    : TelegramUserClient :=
  if out event then b
  else
    let '(message, db1) :=
      Database.add_message json_dumps (db b) (id event) (chat_id event)
        (sender_id event) (text event) (date event) None in
    match message with
    | None => b
    | Some _ =>
        let '(analysis, oc) :=
          Ollama.analyze_text generate json_loads (ollama_client b) (text event) in
        let unanalysed :=
          {| db := db1; wiki_client := wiki_client b; ollama_client := oc |} in
        match analysis with
        | None => unanalysed
        | Some analysis =>
            if negb (Py.truthy analysis) then unanalysed
            else
              let title := page_title analysis (id event) in
              let content := page_content title event in
              let '(ok, wc) :=
                Wiki.edit_page api_ok (wiki_client b) (format title) content true in
              if ok
              then {| db := snd (Database.mark_message_as_processed db1 (id event) (format title));
                      wiki_client := wc; ollama_client := oc |}
              else {| db := db1; wiki_client := wc; ollama_client := oc |}
        end
    end.

(** The body of [for message in messages] in [setup]. *)
Definition setup_message (processed_messages : list Z) (h : History)
    (message : TgMessage) : History :=
  if negb (has_text (text message)) then h
  else if negb (existsb (Z.eqb (id message)) processed_messages) then
    let b := bot h in
    let '(analysis, oc) :=
      Ollama.analyze_text generate json_loads (ollama_client b) (text message) in
    let unanalysed :=
      {| bot := {| db := db b; wiki_client := wiki_client b; ollama_client := oc |};
         total_processed := total_processed h;
         total_skipped := total_skipped h;
         fetched := fetched h |} in
    match analysis with
    | None => unanalysed
    | Some analysis =>
        if negb (Py.truthy analysis) then unanalysed
        else
          let title := page_title analysis (id message) in
          let content := page_content title message in
          let '(ok, wc) :=
            Wiki.edit_page api_ok (wiki_client b) (format title) content true in
          let db1 :=
            if ok
            then snd (Database.mark_message_as_processed (db b) (id message) (format title))
            else db b in
          let db2 :=
            snd (Database.add_message json_dumps db1 (id message) (chat_id message)
                   (sender_id message) (text message) (date message) (Some analysis)) in
          {| bot := {| db := db2; wiki_client := wc; ollama_client := oc |};
             total_processed := if ok then S (total_processed h) else total_processed h;
             total_skipped := total_skipped h;
             fetched := fetched h |}
    end
  else
    {| bot := bot h;
       total_processed := total_processed h;
       total_skipped := S (total_skipped h);
       fetched := fetched h |}.

(** One page: the processed ids are read once, then every message of the
    page goes through [setup_message]. *)
Definition setup_page (h : History) (messages : list TgMessage) : History :=
  let processed_messages := Database.get_processed_messages (db (bot h)) in
  fold_left (setup_message processed_messages) messages h.

Definition record_request (h : History) (offset_id : Z)
    (answer : option (list TgMessage)) : History :=
  {| bot := bot h;
     total_processed := total_processed h;
     total_skipped := total_skipped h;
     fetched := (fetched h ++ [(offset_id, answer)])%list |}.

(** The [while True] loop of [setup].  It leaves on an empty page and on
    a request that raises; [fuel] bounds the number of requests, and
    [None] is returned when it runs out. *)
Fixpoint setup_history (fuel : nat) (offset_id : Z) (h : History) : option History :=
  match fuel with
  | O => None
  | S fuel' =>
      let answer := get_messages (length (fetched h)) limit offset_id in
      let h := record_request h offset_id answer in
      match answer with
      | None => Some h
      | Some [] => Some h
      | Some (first :: rest) =>
          setup_history fuel' (id (List.last rest first)) (setup_page h (first :: rest))
      end
  end.

(** The requests of [setup_history] alone: what is asked depends on the
    answers of the platform only, not on what processing does. *)
Fixpoint scan (fuel : nat) (n : nat) (offset_id : Z)
    : option (list (Z * option (list TgMessage))) :=
  match fuel with
  | O => None
  | S fuel' =>
      let answer := get_messages n limit offset_id in
      match answer with
      | None => Some [(offset_id, answer)]
      | Some [] => Some [(offset_id, answer)]
      | Some (first :: rest) =>
          option_map (cons (offset_id, answer))
                     (scan fuel' (S n) (id (List.last rest first)))
      end
  end.

End Pipeline.

(** A well-formed run of requests from a cursor: every page but the last
    has messages and is followed by a request at the id of its last
    message; the run ends with an empty page or a failed request. *)
Inductive chain : Z -> list (Z * option (list TgMessage)) -> Prop :=
| chain_empty offset_id : chain offset_id [(offset_id, Some [])]
| chain_failed offset_id : chain offset_id [(offset_id, None)]
| chain_page offset_id first rest run :
    chain (id (List.last rest first)) run ->
    chain offset_id ((offset_id, Some (first :: rest)) :: run).

(** A conversation as the platform keeps it: newest first, with ids
    that are positive and strictly decreasing. *)
Definition newest_first (conversation : list TgMessage) : Prop :=
  StronglySorted (fun newer older => id older < id newer) conversation
  /\ List.Forall (fun m => 0 < id m) conversation.

(** The sizes of the pages received and the ids the loop went through. *)
Definition run_sizes (run : list (Z * option (list TgMessage))) : list nat :=
  map (fun r => match snd r with Some page => length page | None => O end) run.

Definition run_ids (run : list (Z * option (list TgMessage))) : list Z :=
  concat (map (fun r => match snd r with Some page => map id page | None => [] end) run).

Definition page_sizes (h : History) : list nat := run_sizes (fetched h).

Definition visited (h : History) : list Z := run_ids (fetched h).

(** The chat platform, as [get_messages] uses it: a conversation is the
    list of its messages, newest first; a request returns at most [limit]
    messages older than [offset_id], newest first, and [offset_id = 0]
    starts from the newest. *)
Definition conversation_page (conversation : list TgMessage)
    (n : nat) (limit offset_id : Z) : option (list TgMessage) :=
  Some (firstn (Z.to_nat limit)
          (List.filter (fun m => (offset_id =? 0) || (id m <? offset_id)) conversation)).

End Main.

(** ** Scenarios: concrete collaborators and messages *)

Module Scenario.

Definition dumps (d : Py.dict) : string := "{}".
Definition wiki_up (n : nat) : bool := true.
Definition no_format (v : Py.json) : string := "None".

(** A row already published under the page [A]. *)
Definition published_row : Database.Message :=
  {| Database.message_id := 1; Database.chat_id := 10; Database.user_id := 20;
     Database.text := Some "hello"; Database.date := "2024-01-01 00:00:00";
     Database.is_processed := true; Database.wiki_page := Some "A";
     Database.analysis := None |}.

(** The reply of the specification's example, and the object in it. *)
Definition title_json : string :=
  "{" ++ Py.dq ++ "title" ++ Py.dq ++ ":" ++ Py.dq ++ "X" ++ Py.dq ++ "}".
Definition prose_body : string := "Here you go: " ++ title_json ++ " enjoy!".

(** An object without a title. *)
Definition summary_json : string :=
  "{" ++ Py.dq ++ "summary" ++ Py.dq ++ ":" ++ Py.dq ++ "S" ++ Py.dq ++ "}".

(** [json.loads] on the texts the scenarios use. *)
Definition loads (s : string) : option Py.dict :=
  if String.eqb s title_json then Some [("title", Py.JStr "X")]
  else if String.eqb s summary_json then Some [("summary", Py.JStr "S")]
  else None.

Definition reply_of (response : string) : Ollama.http_reply :=
  Ollama.Reply 200 (Some (Py.JObj [("response", Py.JStr response); ("done", Py.JBool true)])).

(** A service that wraps the titled object in prose, and one that
    answers with the object without a title. *)
Definition titled_service (n : nat) (prompt : string) : Ollama.http_reply :=
  reply_of prose_body.
Definition untitled_service (n : nat) (prompt : string) : Ollama.http_reply :=
  reply_of summary_json.

Definition fresh_ollama : Ollama.OllamaClient :=
  {| Ollama.session := true; Ollama.posted := [] |}.

(** A wiki that takes no save. *)
Definition wiki_down (n : nat) : bool := false.

Definition fresh_wiki : Wiki.WikiClient :=
  {| Wiki.site := Some ∅; Wiki.requests := O; Wiki.saved := [] |}.

(** A wiki that holds the page [T] with the text [old]. *)
Definition wiki_with_page : Wiki.WikiClient :=
  {| Wiki.site := Some (<["T" := "old"]> ∅); Wiki.requests := O; Wiki.saved := [] |}.

Definition fresh_bot : Main.TelegramUserClient :=
  {| Main.db := []; Main.wiki_client := fresh_wiki; Main.ollama_client := fresh_ollama |}.

Definition fresh_history : Main.History :=
  {| Main.bot := fresh_bot; Main.total_processed := O; Main.total_skipped := O;
     Main.fetched := [] |}.

Definition message_of (mid : Z) (txt : option string) : Main.TgMessage :=
  {| Main.id := mid; Main.chat_id := 10; Main.sender_id := 20;
     Main.text := txt; Main.date := "2024-01-01 00:00:00"; Main.out := false |}.

(** A conversation of [n] messages with the ids [n], ..., [1], newest
    first. *)
Definition conversation (n : nat) : list Main.TgMessage :=
  map (fun i => message_of (Z.of_nat i) (Some "text")) (rev (seq 1 n)).

(** The titles of the pages saved so far. *)
Definition saved_titles (b : Main.TelegramUserClient) : list string :=
  map (fun s => fst (fst s)) (Wiki.saved (Main.wiki_client b)).

End Scenario.

(** * Properties of the string operations *)

Module PyFacts.
Import Py.

Lemma get_Some_lt (s : string) : forall k c, get k s = Some c -> (k < String.length s)%nat.
Proof.
  induction s as [|a s IH]; intros k c H; simpl in *; [discriminate|].
  destruct k as [|k]; [lia|]. apply IH in H. lia.
Qed.

Lemma find_from_spec (c : ascii) (s : string) : forall i,
  find_from c s i = -1
  \/ exists k, find_from c s i = i + Z.of_nat k /\ get k s = Some c.
Proof.
  induction s as [|a s IH]; intros i; simpl; [now left|].
  destruct (Ascii.eqb_spec a c) as [E|E].
  - right. exists O. subst a. split; [lia | reflexivity].
  - destruct (IH (i + 1)) as [H|[k [H G]]]; [now left|].
    right. exists (S k). split; [lia | exact G].
Qed.

Lemma rfind_from_spec (c : ascii) (s : string) : forall i last,
  rfind_from c s i last = last
  \/ exists k, rfind_from c s i last = i + Z.of_nat k /\ get k s = Some c.
Proof.
  induction s as [|a s IH]; intros i last; simpl; [now left|].
  destruct (IH (i + 1) (if Ascii.eqb a c then i else last)) as [H|[k [H G]]].
  - rewrite H. destruct (Ascii.eqb_spec a c) as [E|E]; [|now left].
    right. exists O. subst a. split; [lia | reflexivity].
  - right. exists (S k). split; [lia | exact G].
Qed.

Lemma find_spec (c : ascii) (s : string) :
  find c s = -1 \/ exists k, find c s = Z.of_nat k /\ get k s = Some c.
Proof.
  unfold find. destruct (find_from_spec c s 0) as [H|[k [H G]]]; [now left|].
  right. exists k. split; [lia | exact G].
Qed.

Lemma rfind_spec (c : ascii) (s : string) :
  rfind c s = -1 \/ exists k, rfind c s = Z.of_nat k /\ get k s = Some c.
Proof.
  unfold rfind. destruct (rfind_from_spec c s 0 (-1)) as [H|[k [H G]]]; [now left|].
  right. exists k. split; [lia | exact G].
Qed.

Lemma substring_zero (s : string) : forall n, substring n 0 s = EmptyString.
Proof.
  induction s as [|a s IH]; intros [|n]; simpl; try reflexivity. apply IH.
Qed.

Lemma length_substring (s : string) : forall n m,
  (n + m <= String.length s)%nat -> String.length (substring n m s) = m.
Proof.
  induction s as [|a s IH]; intros n m H; simpl in H.
  - assert (n = O) by lia. assert (m = O) by lia. now subst.
  - destruct n as [|n]; simpl.
    + destruct m as [|m]; simpl; [reflexivity|].
      f_equal. apply (IH O m). lia.
    + apply IH. lia.
Qed.

(** A text that ends with a character that is no whitespace is left
    alone by [rstrip], and one that starts with such a character by
    [lstrip]. *)
Lemma rstrip_id (s : string) : forall c,
  get (String.length s - 1) s = Some c -> isspace c = false -> rstrip s = s.
Proof.
  induction s as [|a s IH]; intros c G Hc; [reflexivity|].
  destruct s as [|b s].
  - simpl in *. injection G as ->. now rewrite Hc.
  - change (rstrip (String a (String b s)))
      with (match rstrip (String b s) with
            | EmptyString => if isspace a then EmptyString else String a EmptyString
            | r => String a r
            end).
    rewrite (IH c); [reflexivity | | exact Hc].
    replace (String.length (String a (String b s)) - 1)%nat
      with (S (String.length (String b s) - 1)) in G by (simpl; lia).
    exact G.
Qed.

Lemma strip_id (s : string) (c d : ascii) :
  get 0 s = Some c -> isspace c = false ->
  get (String.length s - 1) s = Some d -> isspace d = false ->
  strip s = s.
Proof.
  intros G0 Hc G1 Hd. unfold strip. rewrite (rstrip_id s d G1 Hd).
  destruct s as [|a s]; [reflexivity|].
  simpl in G0. injection G0 as ->. simpl. now rewrite Hc.
Qed.

Lemma endswith_last (p s : string) (c d : ascii) :
  get (String.length p - 1) p = Some c ->
  get (String.length s - 1) s = Some d ->
  c <> d -> endswith p s = false.
Proof.
  intros Gp Gs Hne. unfold endswith.
  destruct (Nat.leb_spec (String.length p) (String.length s)) as [Hle|Hlt];
    [|reflexivity].
  simpl. apply String.eqb_neq. intros E.
  pose proof (get_Some_lt _ _ _ Gp) as Lp.
  pose proof (substring_correct1 s (String.length s - String.length p)
                (String.length p) (String.length p - 1)) as H.
  rewrite E in H.
  replace (String.length p - 1 + (String.length s - String.length p))%nat
    with (String.length s - 1)%nat in H by lia.
  rewrite Gp, Gs in H. apply Hne.
  assert (Some c = Some d) as Hcd by (apply H; lia). now injection Hcd.
Qed.

End PyFacts.

(** * Properties of the analysis gateway *)

Module OllamaFacts.
Import Py PyFacts Ollama.

(** The text between the first opening and the last closing brace is
    empty (the closing brace comes first) or starts and ends with the
    braces. *)
Lemma slice_braces (s : string) (k1 k2 : nat) :
  get k1 s = Some "{"%char -> get k2 s = Some "}"%char ->
  let x := slice s (Some (Z.of_nat k1)) (Some (Z.of_nat k2 + 1)) in
  x = EmptyString
  \/ (get 0 x = Some "{"%char /\ get (String.length x - 1) x = Some "}"%char).
Proof.
  intros G1 G2.
  pose proof (get_Some_lt _ _ _ G1) as L1.
  pose proof (get_Some_lt _ _ _ G2) as L2.
  unfold slice, clamp, len.
  destruct (Z.ltb_spec (Z.of_nat k1) 0) as [?|_]; [lia|].
  destruct (Z.ltb_spec (Z.of_nat k2 + 1) 0) as [?|_]; [lia|].
  rewrite (Z.min_l (Z.of_nat k1)), (Z.max_r 0 (Z.of_nat k1)) by lia.
  rewrite (Z.min_l (Z.of_nat k2 + 1)), (Z.max_r 0 (Z.of_nat k2 + 1)) by lia.
  rewrite Nat2Z.id.
  destruct (Nat.lt_ge_cases k2 k1) as [Hlt|Hge].
  - left. replace (Z.to_nat (Z.of_nat k2 + 1 - Z.of_nat k1)) with O by lia.
    apply substring_zero.
  - right. replace (Z.to_nat (Z.of_nat k2 + 1 - Z.of_nat k1)) with (S (k2 - k1)) by lia.
    rewrite length_substring by lia.
    rewrite !substring_correct1 by lia.
    replace (S (k2 - k1) - 1 + k1)%nat with k2 by lia.
    simpl. split; assumption.
Qed.

(** The cleaning steps of [analyze_text] change nothing in such a text:
    there is no whitespace to strip around the braces and no fence. *)
Lemma cleaning_braces (x : string) :
  get 0 x = Some "{"%char -> get (String.length x - 1) x = Some "}"%char ->
  strip x = x
  /\ startswith "```json" x = false
  /\ endswith "```" x = false.
Proof.
  intros G0 G1. split; [|split].
  - now apply (strip_id x "{" "}").
  - destruct x as [|a x]; [discriminate|].
    simpl in G0. injection G0 as ->. reflexivity.
  - apply (endswith_last "```" x "`" "}"); [reflexivity | exact G1 | discriminate].
Qed.

Section Gateway.

Variable generate : nat -> string -> http_reply.
Variable json_loads : string -> option dict.

Lemma extract_json_no_brace (response_text : string) :
  find "{" response_text = -1 \/ rfind "}" response_text = -1 ->
  extract_json json_loads response_text = None.
Proof.
  intros [H|H]; unfold extract_json; rewrite H; simpl; [reflexivity|].
  now rewrite orb_true_r.
Qed.

Lemma extract_json_braces (response_text : string) :
  find "{" response_text <> -1 -> rfind "}" response_text <> -1 ->
  extract_json json_loads response_text
  = json_loads (slice response_text (Some (find "{" response_text))
                                    (Some (rfind "}" response_text + 1))).
Proof.
  intros Hf Hr.
  destruct (find_spec "{" response_text) as [?|[k1 [E1 G1]]]; [contradiction|].
  destruct (rfind_spec "}" response_text) as [?|[k2 [E2 G2]]]; [contradiction|].
  unfold extract_json. rewrite E1, E2.
  destruct (Z.eqb_spec (Z.of_nat k1) (-1)) as [?|_]; [lia|].
  destruct (Z.eqb_spec (Z.of_nat k2 + 1) 0) as [?|_]; [lia|].
  simpl orb. cbv iota.
  destruct (slice_braces response_text k1 k2 G1 G2) as [E|[G0 Gl]].
  - rewrite E. reflexivity.
  - destruct (cleaning_braces _ G0 Gl) as [Hs [Hp He]].
    cbv zeta. rewrite Hs, Hp, He, Hs. reflexivity.
Qed.

End Gateway.

(** C6: [analyze_text] hands to the parser the text from the first
    opening brace to the last closing brace of the reply (the stripping
    of whitespace and of a code fence leaves that text as it is), so the
    reply of the example is parsed as its embedded object; a reply
    without one of the braces, a status other than 200, a request that
    raises and a parse failure all give [None], and the function returns
    on every reply. *)
Theorem analyze_text_parses_embedded_json
    (generate : nat -> string -> http_reply)
    (json_loads : string -> option dict)
    (c : OllamaClient) (text : string) :
  (forall result response_text,
      session c = true ->
      generate (length (posted c)) (prompt text) = Reply 200 (Some (JObj result)) ->
      dict_lookup "response" result = Some (JStr response_text) ->
      fst (analyze_text generate json_loads c (Some text))
      = extract_json json_loads response_text)
  /\ (forall response_text,
        find "{" response_text <> -1 -> rfind "}" response_text <> -1 ->
        extract_json json_loads response_text
        = json_loads (slice response_text (Some (find "{" response_text))
                                          (Some (rfind "}" response_text + 1))))
  /\ (json_loads Scenario.title_json = Some [("title", JStr "X")] ->
        extract_json json_loads Scenario.prose_body = Some [("title", JStr "X")])
  /\ (forall response_text,
        find "{" response_text = -1 \/ rfind "}" response_text = -1 ->
        extract_json json_loads response_text = None)
  /\ (forall status body,
        generate (length (posted c)) (prompt text) = Reply status body ->
        status <> 200 ->
        fst (analyze_text generate json_loads c (Some text)) = None)
  /\ (generate (length (posted c)) (prompt text) = TransportError ->
        fst (analyze_text generate json_loads c (Some text)) = None)
  /\ (forall response_text,
        json_loads (slice response_text (Some (find "{" response_text))
                                        (Some (rfind "}" response_text + 1))) = None ->
        extract_json json_loads response_text = None).
Proof.
  repeat split.
  - intros result response_text Hs Hg Hl. unfold analyze_text.
    rewrite Hs, Hg. simpl. now rewrite Hl.
  - intros response_text. apply extract_json_braces.
  - intros Hl. rewrite <- Hl.
    rewrite extract_json_braces by (vm_compute; discriminate).
    reflexivity.
  - apply extract_json_no_brace.
  - intros status body Hg Hne. unfold analyze_text.
    destruct (session c); simpl; [|reflexivity].
    rewrite Hg. destruct (Z.eqb_spec status 200); [contradiction|reflexivity].
  - intros Hg. unfold analyze_text.
    destruct (session c); simpl; [|reflexivity]. now rewrite Hg.
  - intros response_text Hl.
    destruct (Z.eq_dec (find "{" response_text) (-1)) as [E1|N1];
      [apply extract_json_no_brace; now left|].
    destruct (Z.eq_dec (rfind "}" response_text) (-1)) as [E2|N2];
      [apply extract_json_no_brace; now right|].
    now rewrite extract_json_braces.
Qed.

Lemma analyze_text_parses_embedded_json_witness :
  session Scenario.fresh_ollama = true
  /\ Scenario.loads Scenario.title_json = Some [("title", JStr "X")]
  /\ fst (analyze_text Scenario.titled_service Scenario.loads
            Scenario.fresh_ollama (Some "hello"))
     = extract_json Scenario.loads Scenario.prose_body
  /\ extract_json Scenario.loads Scenario.prose_body = Some [("title", JStr "X")].
Proof.
  destruct (analyze_text_parses_embedded_json Scenario.titled_service Scenario.loads
              Scenario.fresh_ollama "hello") as [H1 [_ [H3 _]]].
  split; [reflexivity|]. split; [reflexivity|]. split.
  - apply (H1 [("response", JStr Scenario.prose_body); ("done", JBool true)]);
      reflexivity.
  - apply H3. reflexivity.
Defined.

(** C9, as the code has it: [analyze_text] does not look at its text
    before sending it; with the session open, every text, the empty one
    and one of whitespace alone included, is sent in one request whose
    prompt embeds it. *)
Theorem analyze_text_sends_every_text
    (generate : nat -> string -> http_reply)
    (json_loads : string -> option dict)
    (c : OllamaClient) (text : string) :
  session c = true ->
  posted (snd (analyze_text generate json_loads c (Some text)))
  = (posted c ++ [(prompt_head ++ text ++ prompt_tail)%string])%list.
Proof.
  intros Hs. unfold analyze_text. rewrite Hs. simpl.
  destruct (generate (length (posted c)) (prompt text)) as [|status body];
    [reflexivity|].
  destruct (status =? 200); simpl; [|reflexivity].
  destruct body as [[| | | | | |result]|]; try reflexivity.
  destruct (dict_lookup "response" result) as [[]|]; reflexivity.
Qed.

Lemma analyze_text_sends_every_text_witness :
  session Scenario.fresh_ollama = true
  /\ posted (snd (analyze_text Scenario.titled_service Scenario.loads
                    Scenario.fresh_ollama (Some "   ")))
     = [prompt_head ++ "   " ++ prompt_tail].
Proof.
  split; [reflexivity|].
  apply (analyze_text_sends_every_text Scenario.titled_service Scenario.loads
           Scenario.fresh_ollama "   ").
  reflexivity.
Defined.

(** C9, as the specification words it, fails: the empty text is not
    rejected before the network is used; the request is sent and the
    answer of the service is returned. *)
Lemma analyze_text_empty_text_not_rejected :
  ~ (fst (analyze_text Scenario.titled_service Scenario.loads
            Scenario.fresh_ollama (Some EmptyString)) = None
     /\ posted (snd (analyze_text Scenario.titled_service Scenario.loads
                       Scenario.fresh_ollama (Some EmptyString))) = []).
Proof. intros [H _]. vm_compute in H. discriminate. Qed.

End OllamaFacts.

(** * Properties of the publication target *)

Module WikiFacts.
Import Wiki.

Section Target.

Variable api_ok : nat -> bool.

(** A successful [edit_page] is one more save, under the title given; a
    failed one saves nothing. *)
Lemma edit_page_saved w title content append :
  saved (snd (edit_page api_ok w title content append))
  = if fst (edit_page api_ok w title content append)
    then (saved w ++ [(title,
                       match page_text (snd (edit_page api_ok w title content append)) title with
                       | Some body => body
                       | None => content
                       end,
                       match page_text w title with
                       | Some _ => "Обновление страницы ботом"
                       | None => "Создание страницы ботом"
                       end)])%list
    else saved w.
Proof.
  unfold edit_page, create_page, page_save, page_text.
  destruct (site w) as [pages|] eqn:Hs; simpl; rewrite ?Hs; [|reflexivity].
  destruct (pages !! title) as [old|] eqn:Hl; destruct (api_ok (requests w));
    simpl; rewrite ?lookup_insert_eq, ?Hs, ?Hl; reflexivity.
Qed.

Lemma edit_page_saved_length w title content append :
  length (saved (snd (edit_page api_ok w title content append)))
  = if fst (edit_page api_ok w title content append)
    then S (length (saved w)) else length (saved w).
Proof.
  rewrite edit_page_saved.
  destruct (fst (edit_page api_ok w title content append)); [|reflexivity].
  rewrite List.length_app. simpl. lia.
Qed.

End Target.

(** C7: on a connected wiki that answers, [edit_page] in append mode
    stores the old text, a blank line and the new content when the page
    exists, and the new content alone when it does not; the other pages
    keep their text. *)
Theorem edit_page_appends_or_creates
    (api_ok : nat -> bool) (w : WikiClient) (pages : gmap string string)
    (title content : string) :
  site w = Some pages -> api_ok (requests w) = true ->
  fst (edit_page api_ok w title content true) = true
  /\ (forall old, pages !! title = Some old ->
        page_text (snd (edit_page api_ok w title content true)) title
        = Some (old ++ Py.nl ++ Py.nl ++ content))
  /\ (pages !! title = None ->
        page_text (snd (edit_page api_ok w title content true)) title = Some content)
  /\ (forall other, other <> title ->
        page_text (snd (edit_page api_ok w title content true)) other
        = page_text w other).
Proof.
  intros Hs Hok. unfold edit_page, create_page, page_save, page_text.
  rewrite Hs. destruct (pages !! title) as [old|] eqn:Hl; rewrite Hok; simpl.
  - split; [reflexivity|]. split; [|split].
    + intros old' [= <-]. apply lookup_insert_eq.
    + discriminate.
    + intros other Hne. now apply lookup_insert_ne.
  - split; [reflexivity|]. split; [|split].
    + discriminate.
    + intros _. apply lookup_insert_eq.
    + intros other Hne. now apply lookup_insert_ne.
Qed.

Lemma edit_page_appends_or_creates_witness :
  site Scenario.wiki_with_page = Some (<["T" := "old"]> ∅)
  /\ Scenario.wiki_up (requests Scenario.wiki_with_page) = true
  /\ page_text (snd (edit_page Scenario.wiki_up Scenario.wiki_with_page "T" "new" true)) "T"
     = Some ("old" ++ Py.nl ++ Py.nl ++ "new")
  /\ page_text (snd (edit_page Scenario.wiki_up Scenario.wiki_with_page "U" "new" true)) "U"
     = Some "new".
Proof.
  split; [reflexivity|]. split; [reflexivity|].
  split.
  - destruct (edit_page_appends_or_creates Scenario.wiki_up Scenario.wiki_with_page
                (<["T" := "old"]> ∅) "T" "new") as [_ [H _]];
      [reflexivity | reflexivity |].
    apply H. reflexivity.
  - destruct (edit_page_appends_or_creates Scenario.wiki_up Scenario.wiki_with_page
                (<["T" := "old"]> ∅) "U" "new") as [_ [_ [H _]]];
      [reflexivity | reflexivity |].
    apply H. reflexivity.
Defined.

End WikiFacts.

(** * Properties of the table of messages *)

Module DatabaseFacts.
Import Database.

Lemma filter_by_message_id_nil mid db :
  filter_by_message_id mid db = [] <-> ~ In mid (map message_id db).
Proof.
  unfold filter_by_message_id. induction db as [|r db IH]; simpl.
  - tauto.
  - destruct (Z.eqb_spec (message_id r) mid) as [E|E].
    + split; [discriminate | intros H; exfalso; apply H; now left].
    + rewrite IH. tauto.
Qed.

Lemma filter_by_message_id_In mid db r :
  In r (filter_by_message_id mid db) <-> In r db /\ message_id r = mid.
Proof.
  unfold filter_by_message_id. rewrite List.filter_In, Z.eqb_eq. tauto.
Qed.

(** With one row per id, a query by id finds at most one row. *)
Lemma filter_by_message_id_unique mid db :
  List.NoDup (map message_id db) ->
  filter_by_message_id mid db = [] \/ exists r, filter_by_message_id mid db = [r].
Proof.
  induction db as [|r db IH]; simpl; intros Hnd.
  - now left.
  - inversion Hnd as [|? ? Hnotin Hnd']; subst.
    unfold filter_by_message_id in *. simpl.
    destruct (Z.eqb_spec (message_id r) mid) as [E|E].
    + right. exists r. f_equal.
      apply (proj2 (filter_by_message_id_nil mid db)). now rewrite <- E.
    + now apply IH.
Qed.

Lemma map_message_id_mark mid wiki db :
  map message_id
      (map (fun r => if message_id r =? mid then set_processed wiki r else r) db)
  = map message_id db.
Proof.
  rewrite List.map_map. apply List.map_ext. intros r.
  now destruct (message_id r =? mid).
Qed.

Lemma filter_by_message_id_mark mid wiki db :
  filter_by_message_id mid
      (map (fun r => if message_id r =? mid then set_processed wiki r else r) db)
  = map (set_processed wiki) (filter_by_message_id mid db).
Proof.
  unfold filter_by_message_id. induction db as [|r db IH]; simpl; [reflexivity|].
  destruct (message_id r =? mid) eqn:E; simpl; rewrite E, IH; reflexivity.
Qed.

Lemma set_processed_idem wiki r :
  set_processed wiki (set_processed wiki r) = set_processed wiki r.
Proof. reflexivity. Qed.

Lemma mark_map_idem mid wiki db :
  let f := fun r => if message_id r =? mid then set_processed wiki r else r in
  map f (map f db) = map f db.
Proof.
  simpl. rewrite List.map_map. apply List.map_ext. intros r.
  destruct (message_id r =? mid) eqn:E; simpl; now rewrite E.
Qed.

Lemma key_iff_processed_set wiki r : key_iff_processed (set_processed wiki r).
Proof. unfold key_iff_processed; simpl; split; [reflexivity | discriminate]. Qed.

Lemma add_message_fresh (json_dumps : Py.dict -> string) db mid chat user txt dt an :
  filter_by_message_id mid db = [] ->
  exists r, add_message json_dumps db mid chat user txt dt an = (Some r, (db ++ [r])%list)
            /\ message_id r = mid /\ is_processed r = false /\ wiki_page r = None.
Proof.
  intros H. unfold add_message. rewrite H. simpl.
  eexists. split; [reflexivity|]. simpl. auto.
Qed.

Lemma add_message_returns_row (json_dumps : Py.dict -> string) db mid chat user txt dt an :
  List.NoDup (map message_id db) ->
  exists r, fst (add_message json_dumps db mid chat user txt dt an) = Some r.
Proof.
  intros Hnd. unfold add_message.
  destruct (filter_by_message_id_unique mid db Hnd) as [H|[r H]]; rewrite H; simpl;
    eexists; reflexivity.
Qed.

Lemma get_processed_messages_In mid db :
  In mid (get_processed_messages db) -> In mid (map message_id db).
Proof.
  unfold get_processed_messages. rewrite !List.in_map_iff.
  intros [r [E Hin]]. apply List.filter_In in Hin. exists r. tauto.
Qed.

Lemma existsb_eqb_false mid (l : list Z) :
  ~ In mid l -> existsb (Z.eqb mid) l = false.
Proof.
  intros H. destruct (existsb (Z.eqb mid) l) eqn:E; [|reflexivity].
  apply List.existsb_exists in E. destruct E as [x [Hin Hx]].
  apply Z.eqb_eq in Hx. subst x. contradiction.
Qed.

Lemma ledger_inv_nil : ledger_inv [].
Proof. split; constructor. Qed.

(** C4, as the code has it: [mark_message_as_processed] returns [False]
    and leaves the table alone when no row has the id; when the row
    exists it returns [True] and records the given page on it, whatever
    the row held before (also a row already processed under another
    page); a second call with the same page returns the same result and
    leaves the same table. *)
Theorem mark_message_as_processed_spec (db : table) (mid : Z) (key : string) :
  (filter_by_message_id mid db = [] ->
     mark_message_as_processed db mid key = (false, db))
  /\ (forall r, filter_by_message_id mid db = [r] ->
        fst (mark_message_as_processed db mid key) = true
        /\ filter_by_message_id mid (snd (mark_message_as_processed db mid key))
           = [set_processed key r]
        /\ forall other, other <> mid ->
             filter_by_message_id other (snd (mark_message_as_processed db mid key))
             = filter_by_message_id other db)
  /\ mark_message_as_processed (snd (mark_message_as_processed db mid key)) mid key
     = mark_message_as_processed db mid key.
Proof.
  unfold mark_message_as_processed.
  split; [|split].
  - intros H. now rewrite H.
  - intros r H. rewrite H. simpl. split; [reflexivity|]. split.
    + now rewrite filter_by_message_id_mark, H.
    + intros other Hne. unfold filter_by_message_id.
      clear H. induction db as [|x db IH]; simpl; [reflexivity|].
      destruct (Z.eqb_spec (message_id x) mid) as [E|E]; simpl.
      * rewrite E. destruct (Z.eqb_spec mid other) as [E'|E']; [congruence|].
        apply IH.
      * destruct (message_id x =? other); [f_equal|]; apply IH.
  - destruct (filter_by_message_id mid db) as [|r [|r' rest]] eqn:H; simpl.
    + now rewrite H.
    + rewrite filter_by_message_id_mark, H. simpl.
      now rewrite (mark_map_idem mid key db).
    + now rewrite H.
Qed.

Lemma mark_message_as_processed_spec_witness :
  filter_by_message_id 1 [Scenario.published_row] = [Scenario.published_row]
  /\ fst (mark_message_as_processed [Scenario.published_row] 1 "B") = true
  /\ filter_by_message_id 1 (snd (mark_message_as_processed [Scenario.published_row] 1 "B"))
     = [set_processed "B" Scenario.published_row].
Proof.
  split; [reflexivity|].
  destruct (mark_message_as_processed_spec [Scenario.published_row] 1 "B")
    as [_ [H _]].
  destruct (H Scenario.published_row) as [H1 [H2 _]]; [reflexivity|].
  split; [exact H1 | exact H2].
Defined.

(** C4, as the specification words it, fails: a row processed under the
    page [A] and marked again with [B] is not refused, the call returns
    [True] and the page becomes [B]. *)
Lemma mark_message_as_processed_other_key_not_refused :
  ~ (mark_message_as_processed [Scenario.published_row] 1 "B"
     = (false, [Scenario.published_row])).
Proof. vm_compute. discriminate. Qed.

Lemma filter_by_message_id_row mid db r :
  List.NoDup (map message_id db) -> In r db -> message_id r = mid ->
  filter_by_message_id mid db = [r].
Proof.
  intros Hnd Hin Hid.
  assert (Hf : In r (filter_by_message_id mid db))
    by now apply filter_by_message_id_In.
  destruct (filter_by_message_id_unique mid db Hnd) as [E|[r0 E]]; rewrite E in *.
  - contradiction.
  - destruct Hf as [<-|[]]. reflexivity.
Qed.

Lemma filter_by_message_id_unmarked mid key other db :
  other <> mid ->
  filter_by_message_id other
    (map (fun r => if message_id r =? mid then set_processed key r else r) db)
  = filter_by_message_id other db.
Proof.
  intros Hne. unfold filter_by_message_id.
  induction db as [|x db IH]; simpl; [reflexivity|].
  destruct (Z.eqb_spec (message_id x) mid) as [E|E]; simpl.
  - rewrite E. destruct (Z.eqb_spec mid other) as [E'|E']; [congruence | apply IH].
  - destruct (message_id x =? other); [f_equal|]; apply IH.
Qed.

Lemma ledger_inv_kept
    (json_dumps : Py.dict -> string) (db : table) :
  ledger_inv db ->
  (forall mid chat user txt dt an,
      ledger_inv (snd (add_message json_dumps db mid chat user txt dt an))
      /\ forall r, In r (snd (add_message json_dumps db mid chat user txt dt an)) ->
                   ~ In r db ->
                   message_id r = mid /\ is_processed r = false /\ wiki_page r = None)
  /\ (forall mid key,
      ledger_inv (snd (mark_message_as_processed db mid key))
      /\ forall r, In r (snd (mark_message_as_processed db mid key)) ->
                   ~ In r db ->
                   message_id r = mid /\ is_processed r = true /\ wiki_page r = Some key).
Proof.
  intros [Hnd Hall]. split.
  - intros mid chat user txt dt an. unfold add_message.
    destruct (filter_by_message_id mid db) as [|r0 [|r1 rest]] eqn:H; simpl;
      try (split; [now split | intros r Hin Hnot; contradiction]).
    split.
    + split.
      * rewrite List.map_app. simpl.
        apply List.NoDup_app; [exact Hnd | repeat constructor; simpl; tauto |].
        intros x Hx [Hy|[]]. subst x.
        now apply (proj1 (filter_by_message_id_nil mid db)) in H.
      * apply List.Forall_app. split; [exact Hall|].
        constructor; [|constructor].
        unfold key_iff_processed; simpl. split; [congruence|discriminate].
    + intros r Hin Hnot. apply List.in_app_or in Hin.
      destruct Hin as [Hin|[Hin|[]]]; [contradiction|].
      subst r. simpl. auto.
  - intros mid key. unfold mark_message_as_processed.
    destruct (filter_by_message_id mid db) as [|r0 [|r1 rest]] eqn:H; simpl;
      try (split; [now split | intros r Hin Hnot; contradiction]).
    split.
    + split.
      * now rewrite map_message_id_mark.
      * apply List.Forall_forall. intros r Hin.
        apply List.in_map_iff in Hin. destruct Hin as [x [Hx Hin]].
        destruct (message_id x =? mid); subst r.
        -- apply key_iff_processed_set.
        -- now apply (proj1 (List.Forall_forall _ _) Hall).
    + intros r Hin Hnot.
      apply List.in_map_iff in Hin. destruct Hin as [x [Hx Hin]].
      destruct (Z.eqb_spec (message_id x) mid) as [E|E]; subst r.
      * simpl. auto.
      * contradiction.
Qed.


(** C10: the operations of the table keep one row per message id and a
    page recorded exactly on the processed rows.  [add_message] for an id
    that has no row stores one row, with the data given, unprocessed and
    without a page, and returns it; for an id that has a row it returns
    that row and stores nothing.  [mark_message_as_processed] for an id
    that has a row returns [True] and sets the flag and the page of that
    row together, leaving its other columns and the other rows as they
    were; for an id without a row it returns [False] and changes
    nothing. *)
Theorem ledger_operations_preserve_invariant
    (json_dumps : Py.dict -> string) (db : table) :
  ledger_inv db ->
  (forall mid chat user txt dt an,
      ledger_inv (snd (add_message json_dumps db mid chat user txt dt an))
      /\ (forall r, In r (snd (add_message json_dumps db mid chat user txt dt an)) ->
                    ~ In r db ->
                    message_id r = mid /\ is_processed r = false /\ wiki_page r = None)
      /\ (~ In mid (map message_id db) ->
          exists r,
            add_message json_dumps db mid chat user txt dt an = (Some r, (db ++ [r])%list)
            /\ message_id r = mid /\ chat_id r = chat /\ user_id r = user
            /\ text r = txt /\ date r = dt
            /\ is_processed r = false /\ wiki_page r = None)
      /\ (forall r, In r db -> message_id r = mid ->
            add_message json_dumps db mid chat user txt dt an = (Some r, db)))
  /\ (forall mid key,
      ledger_inv (snd (mark_message_as_processed db mid key))
      /\ (forall r, In r (snd (mark_message_as_processed db mid key)) ->
                    ~ In r db ->
                    message_id r = mid /\ is_processed r = true /\ wiki_page r = Some key)
      /\ (forall r, In r db -> message_id r = mid ->
            fst (mark_message_as_processed db mid key) = true
            /\ exists r',
                 filter_by_message_id mid (snd (mark_message_as_processed db mid key))
                 = [r']
                 /\ is_processed r' = true /\ wiki_page r' = Some key
                 /\ message_id r' = mid /\ chat_id r' = chat_id r
                 /\ user_id r' = user_id r /\ text r' = text r
                 /\ date r' = date r /\ analysis r' = analysis r)
      /\ (~ In mid (map message_id db) ->
          mark_message_as_processed db mid key = (false, db))
      /\ (forall other, other <> mid ->
            filter_by_message_id other (snd (mark_message_as_processed db mid key))
            = filter_by_message_id other db)).
Proof.
  intros Hinv. destruct (ledger_inv_kept json_dumps db Hinv) as [Ha Hm].
  destruct Hinv as [Hnd Hall]. split.
  - intros mid chat user txt dt an.
    destruct (Ha mid chat user txt dt an) as [Hi Hnew].
    split; [exact Hi|]. split; [exact Hnew|]. split.
    + intros Hnot. apply filter_by_message_id_nil in Hnot.
      unfold add_message. rewrite Hnot. simpl.
      eexists. split; [reflexivity|]. simpl. repeat split.
    + intros r Hin Hid. unfold add_message.
      now rewrite (filter_by_message_id_row mid db r Hnd Hin Hid).
  - intros mid key. destruct (Hm mid key) as [Hi Hnew].
    split; [exact Hi|]. split; [exact Hnew|]. split; [|split].
    + intros r Hin Hid. unfold mark_message_as_processed.
      rewrite (filter_by_message_id_row mid db r Hnd Hin Hid). simpl.
      split; [reflexivity|]. exists (set_processed key r).
      rewrite filter_by_message_id_mark,
        (filter_by_message_id_row mid db r Hnd Hin Hid).
      simpl. repeat split. exact Hid.
    + intros Hnot. apply filter_by_message_id_nil in Hnot.
      unfold mark_message_as_processed. now rewrite Hnot.
    + intros other Hne. unfold mark_message_as_processed.
      destruct (scalar_one_or_none (filter_by_message_id mid db)); simpl;
        try reflexivity.
      now apply filter_by_message_id_unmarked.
Qed.

Lemma ledger_operations_preserve_invariant_witness :
  ledger_inv [Scenario.published_row]
  /\ ledger_inv (snd (add_message Scenario.dumps [Scenario.published_row]
                        2 10 20 (Some "hi") "2024-01-02 00:00:00" None))
  /\ ledger_inv (snd (mark_message_as_processed [Scenario.published_row] 1 "B"))
  /\ (exists r, add_message Scenario.dumps [Scenario.published_row]
                  2 10 20 (Some "hi") "2024-01-02 00:00:00" None
                = (Some r, [Scenario.published_row; r])
                /\ is_processed r = false /\ wiki_page r = None)
  /\ fst (mark_message_as_processed [Scenario.published_row] 1 "B") = true.
Proof.
  assert (H : ledger_inv [Scenario.published_row]).
  { split.
    - simpl. constructor; [simpl; tauto | constructor].
    - constructor; [|constructor].
      unfold key_iff_processed. simpl. split; [reflexivity | discriminate]. }
  split; [exact H|].
  destruct (ledger_operations_preserve_invariant Scenario.dumps _ H) as [Ha Hm].
  destruct (Ha 2 10 20 (Some "hi") "2024-01-02 00:00:00" None) as [Hi [_ [Hfresh _]]].
  destruct (Hm 1 "B") as [Hi' [_ [Hrow _]]].
  split; [exact Hi|]. split; [exact Hi'|]. split.
  - destruct Hfresh as [r [E [_ [_ [_ [_ [_ [Hp Hw]]]]]]]].
    + simpl. intros [E|[]]. discriminate.
    + exists r. split; [exact E|]. split; [exact Hp | exact Hw].
  - exact (proj1 (Hrow Scenario.published_row (or_introl eq_refl) eq_refl)).
Defined.

End DatabaseFacts.

(** * Properties of the two processing paths *)

Module MainFacts.
Import Main.

Section Paths.

Variable json_dumps : Py.dict -> string.
Variable api_ok : nat -> bool.
Variable generate : nat -> string -> Ollama.http_reply.
Variable json_loads : string -> option Py.dict.
Variable format_value : Py.json -> string.
Variable get_messages : nat -> Z -> Z -> option (list TgMessage).

#[local] Abbreviation setup_message :=
  (Main.setup_message json_dumps api_ok generate json_loads format_value).
#[local] Abbreviation setup_page :=
  (Main.setup_page json_dumps api_ok generate json_loads format_value).
#[local] Abbreviation setup_history :=
  (Main.setup_history json_dumps api_ok generate json_loads format_value get_messages).
#[local] Abbreviation scan := (Main.scan get_messages).

(** The history loop leaves a message without text alone. *)
Lemma setup_message_skips_empty_text processed h message :
  has_text (text message) = false -> setup_message processed h message = h.
Proof. intros H. unfold Main.setup_message. now rewrite H. Qed.

(** The history loop leaves a processed message alone: nothing is sent,
    saved or stored, and the message is counted as skipped. *)
Lemma setup_message_skips_processed processed h message :
  has_text (text message) = true ->
  In (id message) processed ->
  bot (setup_message processed h message) = bot h
  /\ total_skipped (setup_message processed h message) = S (total_skipped h).
Proof.
  intros Ht Hin. unfold Main.setup_message. rewrite Ht. simpl.
  assert (E : existsb (Z.eqb (id message)) processed = true).
  { apply List.existsb_exists. exists (id message). split; [exact Hin | apply Z.eqb_refl]. }
  rewrite E. simpl. split; reflexivity.
Qed.

Lemma setup_message_fetched processed h message :
  fetched (setup_message processed h message) = fetched h.
Proof.
  unfold Main.setup_message.
  destruct (has_text (text message)); simpl; [|reflexivity].
  destruct (existsb (Z.eqb (id message)) processed); simpl; [reflexivity|].
  destruct (Ollama.analyze_text generate json_loads (ollama_client (bot h)) (text message))
    as [[analysis|] oc]; [|reflexivity].
  destruct (Py.truthy analysis); simpl; [|reflexivity].
  destruct (Wiki.edit_page api_ok (wiki_client (bot h)) _ _ true) as [ok wc].
  reflexivity.
Qed.

Lemma setup_page_fetched messages : forall h,
  fetched (setup_page h messages) = fetched h.
Proof.
  unfold Main.setup_page. intros h.
  generalize (Database.get_processed_messages (db (bot h))) as processed.
  intros processed. revert h.
  induction messages as [|m ms IH]; intros h; simpl; [reflexivity|].
  rewrite IH. apply setup_message_fetched.
Qed.

(** The requests of the loop are those of [scan], whatever the
    processing of the pages does; the loop returns exactly when [scan]
    does. *)
Lemma setup_history_scan fuel : forall offset_id h,
  option_map fetched (setup_history fuel offset_id h)
  = option_map (app (fetched h)) (scan fuel (length (fetched h)) offset_id).
Proof.
  induction fuel as [|fuel IH]; intros offset_id h; simpl; [reflexivity|].
  destruct (get_messages (length (fetched h)) limit offset_id) as [[|first rest]|];
    simpl; try reflexivity.
  rewrite IH, setup_page_fetched. simpl.
  rewrite List.length_app. simpl. rewrite Nat.add_1_r.
  destruct (Main.scan get_messages fuel (S (length (fetched h)))
              (id (List.last rest first))) as [run|]; simpl; [|reflexivity].
  now rewrite <- List.app_assoc.
Qed.

Lemma scan_chain fuel : forall n offset_id run,
  scan fuel n offset_id = Some run -> chain offset_id run.
Proof.
  induction fuel as [|fuel IH]; intros n offset_id run; simpl; [discriminate|].
  destruct (get_messages n limit offset_id) as [[|first rest]|].
  - intros [= <-]. constructor.
  - destruct (Main.scan get_messages fuel (S n) (id (List.last rest first)))
      as [run'|] eqn:E; simpl; [|discriminate].
    intros [= <-]. constructor. now apply (IH (S n)).
  - intros [= <-]. constructor.
Qed.

Lemma scan_more_fuel fuel : forall n offset_id run,
  scan fuel n offset_id = Some run -> scan (S fuel) n offset_id = Some run.
Proof.
  induction fuel as [|fuel IH]; intros n offset_id run; [discriminate|].
  intros H. simpl in H. change (Main.scan get_messages (S (S fuel)) n offset_id)
    with (let answer := get_messages n limit offset_id in
          match answer with
          | None => Some [(offset_id, answer)]
          | Some [] => Some [(offset_id, answer)]
          | Some (first :: rest) =>
              option_map (cons (offset_id, answer))
                (Main.scan get_messages (S fuel) (S n) (id (List.last rest first)))
          end).
  cbv zeta. destruct (get_messages n limit offset_id) as [[|first rest]|];
    try exact H.
  destruct (Main.scan get_messages fuel (S n) (id (List.last rest first)))
    as [run'|] eqn:E; [|discriminate].
  now rewrite (IH _ _ _ E).
Qed.

Lemma scan_enough_fuel fuel extra n offset_id run :
  scan fuel n offset_id = Some run -> scan (extra + fuel) n offset_id = Some run.
Proof.
  intros H. induction extra as [|extra IH]; [exact H|].
  now apply scan_more_fuel.
Qed.

End Paths.

(** C2: in the history loop a message that has no row yet is marked
    before its row is added.  With the analysis and the publication
    done, [mark_message_as_processed] finds no row and returns [False];
    the row added afterwards is unprocessed and has no page, while the
    message is counted as processed; the next pass does not find the id
    among the processed ones and publishes the message again. *)
Theorem backfill_marks_before_adding
    (json_dumps : Py.dict -> string) (api_ok : nat -> bool)
    (generate : nat -> string -> Ollama.http_reply)
    (json_loads : string -> option Py.dict)
    (format_value : Py.json -> string)
    (h : History) (message : TgMessage) (processed : list Z)
    (analysis : Py.dict) (oc : Ollama.OllamaClient) (wc : Wiki.WikiClient) :
  has_text (text message) = true ->
  Database.filter_by_message_id (id message) (db (bot h)) = [] ->
  incl processed (map Database.message_id (db (bot h))) ->
  Ollama.analyze_text generate json_loads (ollama_client (bot h)) (text message)
    = (Some analysis, oc) ->
  Py.truthy analysis = true ->
  Wiki.edit_page api_ok (wiki_client (bot h))
      (format format_value (page_title analysis (id message)))
      (page_content format_value (page_title analysis (id message)) message) true
    = (true, wc) ->
  let title := format format_value (page_title analysis (id message)) in
  let h1 := setup_message json_dumps api_ok generate json_loads format_value
              processed h message in
  Database.mark_message_as_processed (db (bot h)) (id message) title
    = (false, db (bot h))
  /\ (exists r, db (bot h1) = (db (bot h) ++ [r])%list
                /\ Database.message_id r = id message
                /\ Database.is_processed r = false
                /\ Database.wiki_page r = None)
  /\ wiki_client (bot h1) = wc
  /\ length (Wiki.saved wc) = S (length (Wiki.saved (wiki_client (bot h))))
  /\ total_processed h1 = S (total_processed h)
  /\ ~ In (id message) (Database.get_processed_messages (db (bot h1)))
  /\ (forall analysis2 oc2 wc2,
        Ollama.analyze_text generate json_loads oc (text message)
          = (Some analysis2, oc2) ->
        Py.truthy analysis2 = true ->
        Wiki.edit_page api_ok wc
            (format format_value (page_title analysis2 (id message)))
            (page_content format_value (page_title analysis2 (id message)) message) true
          = (true, wc2) ->
        let h2 := setup_message json_dumps api_ok generate json_loads format_value
                    (Database.get_processed_messages (db (bot h1))) h1 message in
        wiki_client (bot h2) = wc2
        /\ length (Wiki.saved wc2) = S (S (length (Wiki.saved (wiki_client (bot h)))))).
Proof.
  intros Ht Hrow Hincl Han Htruthy Hedit title h1.
  assert (Hnotin : ~ In (id message) (map Database.message_id (db (bot h))))
    by now apply DatabaseFacts.filter_by_message_id_nil.
  assert (Hmark : Database.mark_message_as_processed (db (bot h)) (id message) title
                  = (false, db (bot h))).
  { unfold Database.mark_message_as_processed. now rewrite Hrow. }
  destruct (DatabaseFacts.add_message_fresh json_dumps (db (bot h)) (id message)
              (chat_id message) (sender_id message) (text message) (date message)
              (Some analysis) Hrow) as [r [Hadd [Hid [Hproc Hpage]]]].
  assert (Hh1 : h1 = {| bot := {| db := (db (bot h) ++ [r])%list;
                                  wiki_client := wc; ollama_client := oc |};
                        total_processed := S (total_processed h);
                        total_skipped := total_skipped h;
                        fetched := fetched h |}).
  { unfold h1, Main.setup_message. rewrite Ht. simpl negb. cbv iota.
    rewrite (DatabaseFacts.existsb_eqb_false (id message) processed)
      by (intros Hin; apply Hnotin, Hincl, Hin).
    simpl negb. cbv iota. rewrite Han, Htruthy. simpl negb. cbv iota.
    rewrite Hedit. fold title. rewrite Hmark. simpl snd. rewrite Hadd. reflexivity. }
  assert (Hlen : length (Wiki.saved wc) = S (length (Wiki.saved (wiki_client (bot h))))).
  { pose proof (WikiFacts.edit_page_saved_length api_ok (wiki_client (bot h))
                  (format format_value (page_title analysis (id message)))
                  (page_content format_value (page_title analysis (id message)) message)
                  true) as L.
    now rewrite Hedit in L. }
  assert (Hnext : ~ In (id message)
                    (Database.get_processed_messages (db (bot h) ++ [r])%list)).
  { intros Hin. unfold Database.get_processed_messages in Hin.
    rewrite List.filter_app in Hin. simpl in Hin. rewrite Hproc in Hin.
    rewrite List.app_nil_r in Hin.
    apply Hnotin. now apply DatabaseFacts.get_processed_messages_In. }
  rewrite Hh1. simpl.
  split; [exact Hmark|].
  split; [exists r; auto|].
  split; [reflexivity|].
  split; [exact Hlen|].
  split; [reflexivity|].
  split; [exact Hnext|].
  intros analysis2 oc2 wc2 Han2 Htruthy2 Hedit2.
  unfold Main.setup_message. rewrite Ht. simpl negb. cbv iota.
  rewrite (DatabaseFacts.existsb_eqb_false _ _ Hnext).
  simpl. rewrite Han2, Htruthy2. simpl. rewrite Hedit2. simpl.
  split; [reflexivity|].
  pose proof (WikiFacts.edit_page_saved_length api_ok wc
                (format format_value (page_title analysis2 (id message)))
                (page_content format_value (page_title analysis2 (id message)) message)
                true) as L.
  rewrite Hedit2 in L. simpl in L. now rewrite L, Hlen.
Qed.

Lemma backfill_marks_before_adding_witness :
  let h1 := setup_message Scenario.dumps Scenario.wiki_up Scenario.titled_service
              Scenario.loads Scenario.no_format [] Scenario.fresh_history
              (Scenario.message_of 5 (Some "hi")) in
  has_text (text (Scenario.message_of 5 (Some "hi"))) = true
  /\ Database.filter_by_message_id 5 (db (bot Scenario.fresh_history)) = []
  /\ total_processed h1 = 1%nat
  /\ ~ In 5 (Database.get_processed_messages (db (bot h1))).
Proof.
  destruct (backfill_marks_before_adding Scenario.dumps Scenario.wiki_up
              Scenario.titled_service Scenario.loads Scenario.no_format
              Scenario.fresh_history (Scenario.message_of 5 (Some "hi")) []
              [("title", Py.JStr "X")]
              (snd (Ollama.analyze_text Scenario.titled_service Scenario.loads
                      Scenario.fresh_ollama (Some "hi")))
              (snd (Wiki.edit_page Scenario.wiki_up Scenario.fresh_wiki "X"
                      (page_content Scenario.no_format (Py.JStr "X")
                         (Scenario.message_of 5 (Some "hi"))) true)))
    as [_ [_ [_ [_ [Hcount [Hnext _]]]]]];
    [reflexivity | reflexivity | intros x [] | reflexivity | reflexivity | reflexivity |].
  split; [reflexivity|]. split; [reflexivity|].
  split; [exact Hcount | exact Hnext].
Defined.

(** C5, as the code has it: when the analysis has no [title], the title
    is the text [Сообщение_] followed by the id of the message, and both
    paths hand that title to [edit_page]. *)
Theorem missing_title_falls_back_to_message_id
    (json_dumps : Py.dict -> string) (api_ok : nat -> bool)
    (generate : nat -> string -> Ollama.http_reply)
    (json_loads : string -> option Py.dict)
    (format_value : Py.json -> string)
    (analysis : Py.dict) :
  Py.dict_lookup "title" analysis = None ->
  (forall mid, page_title analysis mid = Py.JStr ("Сообщение_" ++ Py.str_of_int mid))
  /\ (forall b event oc,
        out event = false ->
        List.NoDup (map Database.message_id (db b)) ->
        Py.truthy analysis = true ->
        Ollama.analyze_text generate json_loads (ollama_client b) (text event)
          = (Some analysis, oc) ->
        wiki_client (handle_message json_dumps api_ok generate json_loads format_value
                       b event)
        = snd (Wiki.edit_page api_ok (wiki_client b)
                 ("Сообщение_" ++ Py.str_of_int (id event))
                 (page_content format_value
                    (Py.JStr ("Сообщение_" ++ Py.str_of_int (id event))) event)
                 true))
  /\ (forall processed h message oc,
        has_text (text message) = true ->
        ~ In (id message) processed ->
        Py.truthy analysis = true ->
        Ollama.analyze_text generate json_loads (ollama_client (bot h)) (text message)
          = (Some analysis, oc) ->
        wiki_client (bot (setup_message json_dumps api_ok generate json_loads
                            format_value processed h message))
        = snd (Wiki.edit_page api_ok (wiki_client (bot h))
                 ("Сообщение_" ++ Py.str_of_int (id message))
                 (page_content format_value
                    (Py.JStr ("Сообщение_" ++ Py.str_of_int (id message))) message)
                 true)).
Proof.
  intros Hno.
  assert (Htitle : forall mid,
             page_title analysis mid = Py.JStr ("Сообщение_" ++ Py.str_of_int mid)).
  { intros mid. unfold page_title, Py.dict_get. now rewrite Hno. }
  split; [exact Htitle|]. split.
  - intros b event oc Hout Hnd Htruthy Han. unfold handle_message.
    rewrite Hout.
    destruct (DatabaseFacts.add_message_returns_row json_dumps (db b) (id event)
                (chat_id event) (sender_id event) (text event) (date event) None Hnd)
      as [r Hr].
    destruct (Database.add_message json_dumps (db b) (id event) (chat_id event)
                (sender_id event) (text event) (date event) None) as [m db1].
    simpl in Hr. subst m.
    rewrite Han, Htruthy, Htitle. simpl.
    destruct (Wiki.edit_page api_ok (wiki_client b) _ _ true) as [[|] wc]; reflexivity.
  - intros processed h message oc Ht Hnotin Htruthy Han. unfold Main.setup_message.
    rewrite Ht, (DatabaseFacts.existsb_eqb_false _ _ Hnotin). simpl.
    rewrite Han, Htruthy, Htitle. simpl.
    destruct (Wiki.edit_page api_ok (wiki_client (bot h)) _ _ true) as [[|] wc];
      reflexivity.
Qed.

Lemma missing_title_falls_back_to_message_id_witness :
  Py.dict_lookup "title" [("summary", Py.JStr "S")] = None
  /\ page_title [("summary", Py.JStr "S")] 42 = Py.JStr "Сообщение_42"
  /\ Scenario.saved_titles
       (handle_message Scenario.dumps Scenario.wiki_up Scenario.untitled_service
          Scenario.loads Scenario.no_format Scenario.fresh_bot
          (Scenario.message_of 42 (Some "hello")))
     = ["Сообщение_42"].
Proof.
  destruct (missing_title_falls_back_to_message_id Scenario.dumps Scenario.wiki_up
              Scenario.untitled_service Scenario.loads Scenario.no_format
              [("summary", Py.JStr "S")]) as [H1 [H2 _]]; [reflexivity|].
  split; [reflexivity|]. split; [exact (H1 42)|].
  unfold Scenario.saved_titles.
  rewrite (H2 Scenario.fresh_bot (Scenario.message_of 42 (Some "hello"))
              (snd (Ollama.analyze_text Scenario.untitled_service Scenario.loads
                      Scenario.fresh_ollama (Some "hello"))));
    [reflexivity | reflexivity | constructor | reflexivity | reflexivity].
Defined.

(** C5, as the specification words it, fails: for the message 42 and an
    analysis without a title the page is not saved as [Message_42]. *)
Lemma missing_title_is_not_Message_prefix :
  ~ (Scenario.saved_titles
       (handle_message Scenario.dumps Scenario.wiki_up Scenario.untitled_service
          Scenario.loads Scenario.no_format Scenario.fresh_bot
          (Scenario.message_of 42 (Some "hello")))
     = ["Message_42"]).
Proof. intros H. vm_compute in H. discriminate. Qed.

(** C3 at the failing input: the handler of new messages, given a message
    whose text is empty, stores a row for it, sends the empty text to the
    analysis service and publishes what the service answers. *)
Theorem handle_message_takes_empty_text :
  let b := handle_message Scenario.dumps Scenario.wiki_up Scenario.titled_service
             Scenario.loads Scenario.no_format Scenario.fresh_bot
             (Scenario.message_of 7 (Some EmptyString)) in
  map Database.message_id (db b) = [7]
  /\ Ollama.posted (ollama_client b) = [Ollama.prompt EmptyString]
  /\ Scenario.saved_titles b = ["X"].
Proof. vm_compute. repeat split. Qed.

(** C1 at the failing input: the handler of new messages, given twice the
    same message, publishes it twice; the row is processed after the
    first time and the second time the page is saved again all the same. *)
Theorem handle_message_publishes_processed_message_again :
  let handle := handle_message Scenario.dumps Scenario.wiki_up Scenario.titled_service
                  Scenario.loads Scenario.no_format in
  let b1 := handle Scenario.fresh_bot (Scenario.message_of 1 (Some "hello")) in
  let b2 := handle b1 (Scenario.message_of 1 (Some "hello")) in
  Database.get_processed_messages (db b1) = [1]
  /\ Scenario.saved_titles b1 = ["X"]
  /\ Scenario.saved_titles b2 = ["X"; "X"]
  /\ length (Ollama.posted (ollama_client b2)) = 2%nat.
Proof. vm_compute. repeat split. Qed.

(** The history loop, twice over a message that had no row: two saves as
    well, the second pass being the one that marks the row. *)
Lemma setup_page_publishes_new_message_twice :
  let page := Main.setup_page Scenario.dumps Scenario.wiki_up Scenario.titled_service
                Scenario.loads Scenario.no_format in
  let h1 := page Scenario.fresh_history [Scenario.message_of 1 (Some "hello")] in
  let h2 := page h1 [Scenario.message_of 1 (Some "hello")] in
  let h3 := page h2 [Scenario.message_of 1 (Some "hello")] in
  Scenario.saved_titles (bot h1) = ["X"]
  /\ Database.get_processed_messages (db (bot h1)) = []
  /\ Scenario.saved_titles (bot h2) = ["X"; "X"]
  /\ Database.get_processed_messages (db (bot h2)) = [1]
  /\ Scenario.saved_titles (bot h3) = ["X"; "X"]
  /\ total_skipped h3 = 1%nat.
Proof. vm_compute. repeat split. Qed.

Lemma conversation_ids_NoDup (n : nat) : List.NoDup (map id (Scenario.conversation n)).
Proof.
  unfold Scenario.conversation. rewrite List.map_map. simpl.
  apply Finite.Injective_map_NoDup.
  - intros x y. apply Nat2Z.inj.
  - apply List.NoDup_rev, List.seq_NoDup.
Qed.



End MainFacts.

(** * Further properties of the string operations *)

Module PyMore.
Import Py PyFacts.

Lemma append_cons (x : ascii) (a b : string) : String x a ++ b = String x (a ++ b).
Proof. reflexivity. Qed.

Lemma append_nil_l (b : string) : EmptyString ++ b = b.
Proof. reflexivity. Qed.

Lemma append_assoc (a b c : string) : (a ++ b) ++ c = a ++ (b ++ c).
Proof.
  induction a as [|x a IH]; [reflexivity|]. now rewrite !append_cons, IH.
Qed.

Lemma append_nil_r (a : string) : a ++ EmptyString = a.
Proof.
  induction a as [|x a IH]; [reflexivity|]. now rewrite append_cons, IH.
Qed.

Lemma length_append (a b : string) :
  String.length (a ++ b) = (String.length a + String.length b)%nat.
Proof.
  induction a as [|x a IH]; [reflexivity|]. rewrite append_cons. simpl. now rewrite IH.
Qed.

Lemma substring_append_skip (p r : string) (n m : nat) :
  substring (String.length p + n) m (p ++ r) = substring n m r.
Proof.
  induction p as [|x p IH]; [reflexivity|]. rewrite append_cons. simpl. exact IH.
Qed.

Lemma substring_append_whole (b q : string) :
  substring 0 (String.length b) (b ++ q) = b.
Proof.
  induction b as [|x b IH].
  - rewrite append_nil_l. destruct q; reflexivity.
  - rewrite append_cons. simpl. now rewrite IH.
Qed.

Lemma get_last_Some (s : string) :
  s <> EmptyString -> exists c, get (String.length s - 1) s = Some c.
Proof.
  induction s as [|a s IH]; intros H; [contradiction|].
  destruct s as [|b s].
  - exists a. reflexivity.
  - destruct IH as [c Hc]; [discriminate|]. exists c.
    replace (String.length (String a (String b s)) - 1)%nat
      with (S (String.length (String b s) - 1)) by (simpl; lia).
    exact Hc.
Qed.

(** Searching a text that does not hold the character. *)
Lemma find_from_none (c : ascii) (p : string) : forall i j,
  0 <= i -> find_from c p i = -1 -> find_from c p j = -1.
Proof.
  induction p as [|a p IH]; intros i j Hi H; simpl in *; [reflexivity|].
  destruct (Ascii.eqb a c); [lia|]. apply (IH (i + 1)); [lia | exact H].
Qed.

Lemma find_from_append (c : ascii) (p r : string) : forall i,
  0 <= i -> find_from c p i = -1 ->
  find_from c (p ++ r) i = find_from c r (i + len p).
Proof.
  unfold len. induction p as [|a p IH]; intros i Hi H.
  - rewrite append_nil_l. simpl. f_equal. lia.
  - rewrite append_cons. simpl in *.
    destruct (Ascii.eqb a c); [lia|].
    rewrite IH by (lia || assumption). f_equal. lia.
Qed.

Lemma rfind_from_append (c : ascii) (a b : string) : forall i last,
  rfind_from c (a ++ b) i last
  = rfind_from c b (i + len a) (rfind_from c a i last).
Proof.
  unfold len. induction a as [|x a IH]; intros i last.
  - rewrite append_nil_l. simpl. f_equal. lia.
  - rewrite append_cons. simpl. rewrite IH. f_equal. lia.
Qed.

Lemma rfind_from_none (c : ascii) (q : string) : forall i j last,
  0 <= i -> rfind_from c q i (-1) = -1 -> rfind_from c q j last = last.
Proof.
  induction q as [|a q IH]; intros i j last Hi H; simpl in *; [reflexivity|].
  destruct (Ascii.eqb a c).
  - exfalso.
    destruct (rfind_from_spec c q (i + 1) i) as [E|[k [E _]]]; lia.
  - apply (IH (i + 1)); [lia | exact H].
Qed.

(** What [rstrip] with a set of characters leaves and what it removes. *)
Lemma rstrip_chars_split (chars s : string) :
  exists t, s = rstrip_chars chars s ++ t
            /\ forall k c, get k t = Some c -> char_in c chars = true.
Proof.
  induction s as [|a s [t [E Ht]]]; simpl.
  - exists EmptyString. split; [reflexivity | intros k c H; destruct k; discriminate].
  - destruct (rstrip_chars chars s) as [|b r] eqn:R.
    + rewrite append_nil_l in E. subst t. destruct (char_in a chars) eqn:C.
      * exists (String a s). split; [reflexivity|].
        intros [|k] c H; simpl in H; [now injection H as <- | now apply (Ht k)].
      * exists s. split; [reflexivity | exact Ht].
    + exists t. split; [|exact Ht]. rewrite append_cons. now rewrite <- E.
Qed.

Lemma rstrip_chars_last (chars s : string) : forall c,
  get (String.length (rstrip_chars chars s) - 1) (rstrip_chars chars s) = Some c ->
  char_in c chars = false.
Proof.
  induction s as [|a s IH]; intros c; simpl; [discriminate|].
  destruct (rstrip_chars chars s) as [|b r] eqn:R.
  - destruct (char_in a chars) eqn:C; simpl; [discriminate|].
    now intros [= <-].
  - replace (String.length (String a (String b r)) - 1)%nat
      with (S (String.length (String b r) - 1)) by (simpl; lia).
    apply IH.
Qed.

Lemma rstrip_chars_fixed (chars s : string) :
  (forall c, get (String.length s - 1) s = Some c -> char_in c chars = false) ->
  rstrip_chars chars s = s.
Proof.
  induction s as [|a s IH]; intros H; [reflexivity|].
  destruct s as [|b s].
  - simpl. now rewrite (H a).
  - change (rstrip_chars chars (String a (String b s)))
      with (match rstrip_chars chars (String b s) with
            | EmptyString => if char_in a chars then EmptyString else String a EmptyString
            | r => String a r
            end).
    rewrite IH; [reflexivity|].
    intros c Hc. apply H.
    replace (String.length (String a (String b s)) - 1)%nat
      with (S (String.length (String b s) - 1)) by (simpl; lia).
    exact Hc.
Qed.

End PyMore.

(** * Further properties of the analysis gateway *)

Module OllamaMore.
Import Py PyFacts PyMore Ollama.

Lemma substring_one (s : string) : forall k c,
  get k s = Some c -> substring k 1 s = String c EmptyString.
Proof.
  induction s as [|a s IH]; intros k c H; [destruct k; discriminate|].
  destruct k as [|k]; simpl in *.
  - injection H as ->. now rewrite substring_zero.
  - now apply IH.
Qed.

Lemma endswith_slash_last (s : string) :
  get (String.length s - 1) s = Some "/"%char -> endswith "/" s = true.
Proof.
  intros H. unfold endswith. pose proof (get_Some_lt _ _ _ H) as L.
  simpl String.length. destruct (Nat.leb_spec 1 (String.length s)) as [_|?]; [|lia].
  rewrite (substring_one s _ _ H). reflexivity.
Qed.

Lemma char_in_slash (c : ascii) : char_in c "/" = true <-> c = "/"%char.
Proof.
  change (char_in c "/") with (Ascii.eqb "/" c || false).
  rewrite orb_false_r. split.
  - intros H. symmetry. now apply Ascii.eqb_eq.
  - intros ->. apply Ascii.eqb_refl.
Qed.

(** X11: The base URL of the client: the trailing slashes of the URL given
    are removed, all of them and nothing else, so that the base URL never
    ends with a slash, a URL without a trailing slash is kept as it is,
    and stripping twice changes nothing more. *)
Theorem base_url_strips_slashes (url : string) :
  endswith "/" (base_url url) = false
  /\ (exists t, url = base_url url ++ t
                /\ forall k c, get k t = Some c -> c = "/"%char)
  /\ (endswith "/" url = false -> base_url url = url)
  /\ base_url (base_url url) = base_url url.
Proof.
  unfold base_url. split; [|split; [|split]].
  - destruct (rstrip_chars "/" url) as [|a r] eqn:R; [reflexivity|].
    destruct (get_last_Some (String a r)) as [c Hc]; [discriminate|].
    apply (endswith_last "/" (String a r) "/" c); [reflexivity | exact Hc |].
    intros <-. rewrite <- R in Hc. apply rstrip_chars_last in Hc. discriminate.
  - destruct (rstrip_chars_split "/" url) as [t [E Ht]].
    exists t. split; [exact E|]. intros k c H. now apply char_in_slash, (Ht k).
  - intros H. apply rstrip_chars_fixed. intros c Hc.
    destruct (char_in c "/") eqn:C; [|reflexivity].
    apply char_in_slash in C. subst c.
    apply endswith_slash_last in Hc. congruence.
  - apply rstrip_chars_fixed. intros c Hc. now apply rstrip_chars_last in Hc.
Qed.

Lemma base_url_strips_slashes_witness :
  endswith "/" "http://localhost:11434" = false
  /\ base_url "http://localhost:11434" = "http://localhost:11434"
  /\ endswith "/" (base_url "http://localhost:11434//") = false.
Proof.
  split; [reflexivity|]. split.
  - destruct (base_url_strips_slashes "http://localhost:11434") as [_ [_ [H _]]].
    apply H. reflexivity.
  - destruct (base_url_strips_slashes "http://localhost:11434//") as [H _].
    exact H.
Defined.

(** When [any] finds the model: some entry is a dictionary named as the
    model, and the entries before it are dictionaries with other names. *)
Lemma any_named_true (model : string) (entries : list json) :
  any_named model entries = Some true <->
  exists before d after,
    entries = (before ++ JObj d :: after)%list
    /\ dict_lookup "name" d = Some (JStr model)
    /\ List.Forall (fun e => exists d' v, e = JObj d'
                             /\ dict_lookup "name" d' = Some v
                             /\ v <> JStr model) before.
Proof.
  induction entries as [|e entries IH]; simpl.
  - split; [discriminate|]. intros [[|x before] [d [after [E _]]]]; discriminate.
  - split.
    + intros H.
      destruct e as [| | | | | |d]; try discriminate.
      destruct (dict_lookup "name" d) as [v|] eqn:L; [|discriminate].
      assert (Hrest : v <> JStr model -> any_named model entries = Some true ->
                exists before d0 after,
                  (JObj d :: entries = before ++ JObj d0 :: after)%list
                  /\ dict_lookup "name" d0 = Some (JStr model)
                  /\ List.Forall (fun e => exists d' v, e = JObj d'
                                           /\ dict_lookup "name" d' = Some v
                                           /\ v <> JStr model) before).
      { intros Hv Hr. apply IH in Hr. destruct Hr as [before [d0 [after [E [Hn Hb]]]]].
        exists (JObj d :: before), d0, after. subst entries.
        split; [reflexivity|]. split; [exact Hn|].
        constructor; [|exact Hb]. exists d, v. auto. }
      destruct v as [| | | |name| |]; try (apply Hrest; [discriminate | exact H]).
      destruct (String.eqb_spec name model) as [->|Hne].
      * exists [], d, entries. split; [reflexivity|]. split; [exact L | constructor].
      * apply Hrest; [congruence | exact H].
    + intros [before [d [after [E [Hn Hb]]]]].
      destruct before as [|x before]; simpl in E; injection E as -> ->.
      * rewrite Hn. now rewrite String.eqb_refl.
      * inversion Hb as [|? ? [d' [v [-> [Hl Hv]]]] Hb']; subst.
        rewrite Hl.
        assert (Hr : any_named model (before ++ JObj d :: after)%list = Some true).
        { apply IH. exists before, d, after. auto. }
        destruct v as [| | | |name| |]; try exact Hr.
        destruct (String.eqb_spec name model) as [->|_]; [congruence | exact Hr].
Qed.

(** X12: [setup] of the client returns (without raising) exactly when the
    service answers the tag request with status 200 and a dictionary whose
    list [models] has an entry named as the configured model, all the
    entries before it being dictionaries with a name; otherwise the
    session it has opened is closed again.  The prompts sent so far are
    not touched. *)
Theorem setup_ready_iff (tags : http_reply) (model : string) (c : OllamaClient) :
  (fst (setup tags model c) = Ready <->
   exists models before d after,
     tags = Reply 200 (Some (JObj models))
     /\ dict_lookup "models" models = Some (JArr (before ++ JObj d :: after)%list)
     /\ dict_lookup "name" d = Some (JStr model)
     /\ List.Forall (fun e => exists d' v, e = JObj d'
                              /\ dict_lookup "name" d' = Some v
                              /\ v <> JStr model) before)
  /\ (session (snd (setup tags model c)) = true <-> fst (setup tags model c) = Ready)
  /\ posted (snd (setup tags model c)) = posted c.
Proof.
  split; [|split].
  - split.
    + unfold setup. destruct tags as [|status body]; [discriminate|].
      destruct (Z.eqb_spec status 200) as [->|_]; [|discriminate].
      destruct body as [[| | | | | |models]|]; try discriminate.
      unfold dict_get.
      destruct (dict_lookup "models" models) as [v|] eqn:L; [|discriminate].
      destruct v as [| | | |[|]|entries|[|]]; try discriminate.
      destruct (any_named model entries) as [[|]|] eqn:A; try discriminate.
      intros _. apply any_named_true in A.
      destruct A as [before [d [after [-> [Hn Hb]]]]].
      exists models, before, d, after. auto.
    + intros [models [before [d [after [-> [L [Hn Hb]]]]]]].
      unfold setup, dict_get. simpl. rewrite L.
      assert (A : any_named model (before ++ JObj d :: after)%list = Some true).
      { apply any_named_true. exists before, d, after. auto. }
      now rewrite A.
  - unfold setup. destruct tags as [|status body]; simpl; [split; discriminate|].
    destruct (status =? 200); simpl; [|split; discriminate].
    destruct body as [[| | | | | |models]|]; simpl; try (split; discriminate).
    destruct (dict_get models "models" (JArr [])) as [| | | |[|]|entries|[|]];
      simpl; try (split; discriminate).
    destruct (any_named model entries) as [[|]|]; simpl; split;
      try discriminate; reflexivity.
  - unfold setup. destruct tags as [|status body]; simpl; [reflexivity|].
    destruct (status =? 200); simpl; [|reflexivity].
    destruct body as [[| | | | | |models]|]; simpl; try reflexivity.
    destruct (dict_get models "models" (JArr [])) as [| | | |[|]|entries|[|]];
      simpl; try reflexivity.
    destruct (any_named model entries) as [[|]|]; reflexivity.
Qed.

Lemma analyze_text_closed (generate : nat -> string -> http_reply)
    (json_loads : string -> option dict) (c : OllamaClient) (text : option string) :
  session c = false -> analyze_text generate json_loads c text = (None, c).
Proof. intros H. unfold analyze_text. destruct text; [now rewrite H | reflexivity]. Qed.

(** X13: A client that [close] has closed, or whose [setup] has raised, sends
    nothing: [analyze_text] returns [None] for every text and the list of
    prompts sent stays as it was.  Closing twice is closing once. *)
Theorem closed_client_sends_nothing
    (generate : nat -> string -> http_reply) (json_loads : string -> option dict)
    (tags : http_reply) (model : string) (c : OllamaClient) (text : option string) :
  analyze_text generate json_loads (close c) text = (None, close c)
  /\ (fst (setup tags model c) <> Ready ->
        analyze_text generate json_loads (snd (setup tags model c)) text
        = (None, snd (setup tags model c))
        /\ snd (setup tags model c) = close c)
  /\ close (close c) = close c.
Proof.
  split; [now apply analyze_text_closed|]. split; [|reflexivity].
  intros H.
  assert (E : snd (setup tags model c) = close c).
  { unfold setup, close in *. destruct tags as [|status body]; [reflexivity|].
    destruct (status =? 200); [|reflexivity].
    destruct body as [[| | | | | |models]|]; try reflexivity.
    destruct (dict_get models "models" (JArr [])) as [| | | |[|]|entries|[|]];
      try reflexivity.
    destruct (any_named model entries) as [[|]|]; try reflexivity.
    now contradiction H. }
  split; [|exact E]. rewrite E. now apply analyze_text_closed.
Qed.

Lemma closed_client_sends_nothing_witness :
  fst (setup (Reply 503 None) "llama3" Scenario.fresh_ollama) <> Ready
  /\ analyze_text Scenario.titled_service Scenario.loads
       (snd (setup (Reply 503 None) "llama3" Scenario.fresh_ollama)) (Some "hello")
     = (None, snd (setup (Reply 503 None) "llama3" Scenario.fresh_ollama)).
Proof.
  assert (H : fst (setup (Reply 503 None) "llama3" Scenario.fresh_ollama) <> Ready)
    by discriminate.
  split; [exact H|].
  destruct (closed_client_sends_nothing Scenario.titled_service Scenario.loads
              (Reply 503 None) "llama3" Scenario.fresh_ollama (Some "hello"))
    as [_ [Hs _]].
  exact (proj1 (Hs H)).
Defined.

(** X14: An object between braces is what the parser receives, whatever the
    model writes around it: text before it without an opening brace
    (prose, a code fence) and text after it without a closing brace are
    dropped. *)
Theorem extract_json_drops_surrounding_text
    (json_loads : string -> option dict) (before inner after : string) :
  find "{" before = -1 -> rfind "}" after = -1 ->
  extract_json json_loads (before ++ "{" ++ inner ++ "}" ++ after)
  = json_loads ("{" ++ inner ++ "}").
Proof.
  intros Hb Ha.
  set (body := "{" ++ inner ++ "}").
  assert (Es : before ++ "{" ++ inner ++ "}" ++ after = before ++ (body ++ after)).
  { unfold body. now rewrite !append_assoc. }
  assert (Ef : find "{" (before ++ (body ++ after)) = len before).
  { unfold find in *. rewrite find_from_append by (lia || assumption).
    unfold body. rewrite !append_cons. simpl. lia. }
  assert (Er : rfind "}" (before ++ (body ++ after))
               = len before + len inner + 1).
  { unfold rfind in *.
    replace (before ++ (body ++ after))
      with ((before ++ "{" ++ inner) ++ (String "}" after)).
    2:{ unfold body. rewrite !append_assoc. reflexivity. }
    rewrite rfind_from_append. simpl.
    rewrite (rfind_from_none "}" after 0 _ _ (Z.le_refl 0) Ha).
    rewrite ?Ascii.eqb_refl. unfold len.
    rewrite !length_append. simpl. lia. }
  rewrite Es.
  rewrite OllamaFacts.extract_json_braces; rewrite ?Ef, ?Er; unfold len; try lia.
  f_equal. unfold slice, clamp, len.
  assert (Lb : String.length body = S (S (String.length inner))).
  { unfold body. rewrite append_cons, append_nil_l. simpl.
    rewrite length_append. simpl. lia. }
  assert (Ls : String.length (before ++ (body ++ after))
               = (String.length before + (String.length body + String.length after))%nat)
    by now rewrite !length_append.
  destruct (Z.ltb_spec (Z.of_nat (String.length before)) 0) as [?|_]; [lia|].
  destruct (Z.ltb_spec (Z.of_nat (String.length before)
                        + Z.of_nat (String.length inner) + 1 + 1) 0) as [?|_]; [lia|].
  rewrite !Z.min_l, !Z.max_r by lia.
  rewrite Nat2Z.id.
  replace (Z.to_nat (Z.of_nat (String.length before) + Z.of_nat (String.length inner)
                     + 1 + 1 - Z.of_nat (String.length before)))
    with (String.length body) by lia.
  replace (String.length before) with (String.length before + 0)%nat at 1 by lia.
  rewrite substring_append_skip. apply substring_append_whole.
Qed.

Lemma extract_json_drops_surrounding_text_witness :
  find "{" ("```json" ++ nl) = -1
  /\ rfind "}" (nl ++ "```") = -1
  /\ extract_json Scenario.loads
       (("```json" ++ nl) ++ "{" ++ (dq ++ "title" ++ dq ++ ":" ++ dq ++ "X" ++ dq)
          ++ "}" ++ (nl ++ "```"))
     = Scenario.loads ("{" ++ (dq ++ "title" ++ dq ++ ":" ++ dq ++ "X" ++ dq) ++ "}").
Proof.
  split; [reflexivity|]. split; [reflexivity|].
  apply (extract_json_drops_surrounding_text Scenario.loads ("```json" ++ nl)
           (dq ++ "title" ++ dq ++ ":" ++ dq ++ "X" ++ dq) (nl ++ "```"));
    reflexivity.
Defined.

End OllamaMore.

(** * Further properties of the publication target *)

Module WikiMore.
Import Py PyFacts PyMore Wiki.

Section Target.

Variable api_ok : nat -> bool.

(** X5: In overwrite mode the page holds the new content afterwards, whether
    it existed or not, and the other pages keep their text. *)
Theorem edit_page_overwrites (w : WikiClient) (pages : gmap string string)
    (title content : string) :
  site w = Some pages -> api_ok (requests w) = true ->
  fst (edit_page api_ok w title content false) = true
  /\ page_text (snd (edit_page api_ok w title content false)) title = Some content
  /\ (forall other, other <> title ->
        page_text (snd (edit_page api_ok w title content false)) other
        = page_text w other).
Proof.
  intros Hs Hok. unfold edit_page, create_page, page_save, page_text.
  rewrite Hs. destruct (pages !! title) as [old|] eqn:Hl; rewrite Hok; simpl;
    (split; [reflexivity|]); (split; [apply lookup_insert_eq|]);
    intros other Hne; now apply lookup_insert_ne.
Qed.

(** X6: When the client is not connected or the wiki does not take the save,
    [edit_page] and [create_page] return [False], every page keeps its
    text and nothing is added to the saves. *)
Theorem failed_save_changes_nothing (w : WikiClient) (title content : string)
    (append : bool) (categories : option (list string)) :
  site w = None \/ api_ok (requests w) = false ->
  fst (edit_page api_ok w title content append) = false
  /\ fst (create_page api_ok w title content categories) = false
  /\ (forall t, page_text (snd (edit_page api_ok w title content append)) t
                = page_text w t)
  /\ (forall t, page_text (snd (create_page api_ok w title content categories)) t
                = page_text w t)
  /\ saved (snd (edit_page api_ok w title content append)) = saved w
  /\ saved (snd (create_page api_ok w title content categories)) = saved w.
Proof.
  intros H. unfold edit_page, create_page, page_save, page_text.
  destruct (site w) as [pages|] eqn:Hs.
  - destruct H as [H|H]; [discriminate|]. rewrite H.
    destruct (pages !! title); simpl; rewrite ?Hs; repeat split; reflexivity.
  - simpl. rewrite Hs. repeat split; reflexivity.
Qed.

End Target.

Lemma edit_page_overwrites_witness :
  site Scenario.wiki_with_page = Some (<["T" := "old"]> ∅)
  /\ page_text (snd (edit_page Scenario.wiki_up Scenario.wiki_with_page "T" "new" false)) "T"
     = Some "new".
Proof.
  split; [reflexivity|].
  destruct (edit_page_overwrites Scenario.wiki_up Scenario.wiki_with_page
              (<["T" := "old"]> ∅) "T" "new") as [_ [H _]];
    [reflexivity | reflexivity | exact H].
Defined.

Lemma failed_save_changes_nothing_witness :
  Scenario.wiki_down (requests Scenario.wiki_with_page) = false
  /\ page_text (snd (edit_page Scenario.wiki_down Scenario.wiki_with_page "T" "new" true)) "T"
     = Some "old".
Proof.
  split; [reflexivity|].
  destruct (failed_save_changes_nothing Scenario.wiki_down Scenario.wiki_with_page
              "T" "new" true None) as [_ [_ [H _]]]; [now right|].
  rewrite H. reflexivity.
Defined.

Lemma category_links (c : string) (cs : list string) :
  "[[Category:" ++ join ("]]" ++ nl ++ "[[Category:") (c :: cs) ++ "]]"
  = join nl (map (fun x => "[[Category:" ++ x ++ "]]") (c :: cs)).
Proof.
  revert c. induction cs as [|d cs IH]; intros c; [reflexivity|].
  change (join ("]]" ++ nl ++ "[[Category:") (c :: d :: cs))
    with (c ++ ("]]" ++ nl ++ "[[Category:")
            ++ join ("]]" ++ nl ++ "[[Category:") (d :: cs)).
  change (join nl (map (fun x => "[[Category:" ++ x ++ "]]") (c :: d :: cs)))
    with (("[[Category:" ++ c ++ "]]") ++ nl
            ++ join nl (map (fun x => "[[Category:" ++ x ++ "]]") (d :: cs))).
  rewrite <- IH. now rewrite !append_assoc.
Qed.

(** X7: [create_page] writes the content followed, when categories are
    given, by a blank line and one link [[Category:...]] per category,
    each on a line of its own; without categories the content is stored
    as it is.  It does not look whether the page exists: the text of an
    existing page is replaced. *)
Theorem create_page_stores_category_links
    (api_ok : nat -> bool) (w : WikiClient) (pages : gmap string string)
    (title content : string) :
  site w = Some pages -> api_ok (requests w) = true ->
  (forall c cs,
      page_text (snd (create_page api_ok w title content (Some (c :: cs)))) title
      = Some (content ++ nl ++ nl
                ++ join nl (map (fun x => "[[Category:" ++ x ++ "]]") (c :: cs))))
  /\ page_text (snd (create_page api_ok w title content None)) title = Some content
  /\ page_text (snd (create_page api_ok w title content (Some []))) title = Some content.
Proof.
  intros Hs Hok. split; [|split].
  - intros c cs. rewrite <- category_links.
    unfold create_page, page_save, page_text. rewrite Hs, Hok.
    cbv beta iota zeta. unfold snd, site. now rewrite lookup_insert_eq.
  - unfold create_page, page_save, page_text. rewrite Hs, Hok. simpl.
    apply lookup_insert_eq.
  - unfold create_page, page_save, page_text. rewrite Hs, Hok. simpl.
    apply lookup_insert_eq.
Qed.

Lemma create_page_stores_category_links_witness :
  site Scenario.wiki_with_page = Some (<["T" := "old"]> ∅)
  /\ page_text (snd (create_page Scenario.wiki_up Scenario.wiki_with_page "T" "text"
                       (Some ["News"; "Bots"]))) "T"
     = Some ("text" ++ nl ++ nl ++ "[[Category:News]]" ++ nl ++ "[[Category:Bots]]").
Proof.
  split; [reflexivity|].
  destruct (create_page_stores_category_links Scenario.wiki_up Scenario.wiki_with_page
              (<["T" := "old"]> ∅) "T" "text") as [H _]; [reflexivity | reflexivity |].
  exact (H "News" ["Bots"]).
Defined.

(** X8: Two appends in a row: the page ends with the first content, a blank
    line and the second content, after its old text when it had one; two
    saves are made and the other pages keep their text. *)
Theorem edit_page_appends_in_order
    (api_ok : nat -> bool) (w : WikiClient) (pages : gmap string string)
    (title first second : string) :
  site w = Some pages ->
  api_ok (requests w) = true -> api_ok (S (requests w)) = true ->
  let w1 := snd (edit_page api_ok w title first true) in
  let w2 := snd (edit_page api_ok w1 title second true) in
  page_text w2 title
  = Some (match pages !! title with
          | Some old => old ++ nl ++ nl ++ first
          | None => first
          end ++ nl ++ nl ++ second)
  /\ length (saved w2) = S (S (length (saved w)))
  /\ (forall other, other <> title -> page_text w2 other = page_text w other).
Proof.
  intros Hs Hok1 Hok2. unfold edit_page, create_page, page_save, page_text.
  rewrite Hs.
  destruct (pages !! title) as [old|] eqn:Hl; rewrite Hok1; simpl;
    rewrite lookup_insert_eq, Hok2; simpl;
    (split; [now rewrite lookup_insert_eq|]);
    (split; [rewrite !List.length_app; simpl; lia|]);
    intros other Hne; now rewrite !lookup_insert_ne by congruence.
Qed.

Lemma edit_page_appends_in_order_witness :
  site Scenario.fresh_wiki = Some ∅
  /\ page_text
       (snd (edit_page Scenario.wiki_up
               (snd (edit_page Scenario.wiki_up Scenario.fresh_wiki "T" "one" true))
               "T" "two" true)) "T"
     = Some ("one" ++ nl ++ nl ++ "two").
Proof.
  split; [reflexivity|].
  destruct (edit_page_appends_in_order Scenario.wiki_up Scenario.fresh_wiki ∅
              "T" "one" "two") as [H _]; [reflexivity | reflexivity | reflexivity |].
  exact H.
Defined.

Lemma replace_from_here (old new : string) (a : ascii) (s : string) :
  replace_from old new O (String a s)
  = if String.prefix old (String a s)
    then new ++ replace_from old new (String.length old - 1) s
    else String a (replace_from old new O s).
Proof. reflexivity. Qed.

Lemma prefix_empty (s : string) : String.prefix EmptyString s = true.
Proof. destruct s; reflexivity. Qed.

(** An occurrence of a pattern holds every character of the pattern. *)
Lemma prefix_char_found (c : ascii) (old : string) : forall s i,
  0 <= i -> String.prefix old s = true -> char_in c old = true ->
  find_from c s i <> -1.
Proof.
  induction old as [|a old IH]; intros s i Hi Hp Hc; [discriminate|].
  destruct s as [|b s]; [discriminate|].
  simpl in Hp. destruct (ascii_dec a b) as [<-|]; [|discriminate].
  simpl in Hc. simpl. destruct (Ascii.eqb a c); [lia|].
  simpl in Hc. apply IH; [lia | exact Hp | exact Hc].
Qed.

(** A text without one of the characters of the pattern is left as it is
    by [replace]. *)
Lemma replace_from_absent (old new : string) (c : ascii) (s : string) : forall i,
  char_in c old = true -> 0 <= i -> find_from c s i = -1 ->
  replace_from old new O s = s.
Proof.
  induction s as [|a s IH]; intros i Hc Hi Hf; [reflexivity|].
  rewrite replace_from_here.
  destruct (String.prefix old (String a s)) eqn:P.
  - exfalso. now apply (prefix_char_found c old (String a s) i).
  - f_equal. simpl in Hf. destruct (Ascii.eqb a c); [lia|].
    apply (IH (i + 1)); [exact Hc | lia | exact Hf].
Qed.

(** X9: The domain [setup] connects to, for a host (with or without a path)
    in which no colon occurs: the scheme [https://] or [http://] in
    front of it is removed, and a host given alone is kept. *)
Theorem domain_of_removes_scheme (host : string) :
  find ":" host = -1 ->
  domain_of ("https://" ++ host) = host
  /\ domain_of ("http://" ++ host) = host
  /\ domain_of host = host.
Proof.
  intros H. unfold find in H.
  assert (Hs : replace "https://" EmptyString host = host)
    by now apply (replace_from_absent _ _ ":" host 0).
  assert (Hp : replace "http://" EmptyString host = host)
    by now apply (replace_from_absent _ _ ":" host 0).
  unfold domain_of. split; [|split].
  - replace (replace "https://" EmptyString ("https://" ++ host)) with host;
      [exact Hp|].
    unfold replace in *. rewrite !append_cons, append_nil_l.
    rewrite replace_from_here. simpl.
    rewrite prefix_empty, append_nil_l. exact (eq_sym Hs).
  - replace (replace "https://" EmptyString ("http://" ++ host))
      with ("http://" ++ host).
    + unfold replace in *. rewrite !append_cons, append_nil_l.
      rewrite replace_from_here. simpl.
      rewrite prefix_empty, append_nil_l. exact Hp.
    + unfold replace in *. rewrite !append_cons, append_nil_l.
      repeat (rewrite replace_from_here; simpl).
      now rewrite Hs.
  - now rewrite Hs, Hp.
Qed.

Lemma domain_of_removes_scheme_witness :
  find ":" "wiki.example.org/w" = -1
  /\ domain_of ("https://" ++ "wiki.example.org/w") = "wiki.example.org/w".
Proof.
  split; [reflexivity|].
  destruct (domain_of_removes_scheme "wiki.example.org/w") as [H _];
    [reflexivity | exact H].
Defined.

(** X10: [setup] of the wiki client returns [False] both when the connection
    fails and when the login fails, but only the first leaves the client
    unconnected: after a failed login the site is set, and a later
    [edit_page] goes to the wiki and stores the page when the wiki takes
    the save. *)
Theorem setup_failed_login_stays_connected
    (connect : string -> string -> string -> option (gmap string string))
    (login : string -> string -> bool)
    (w : WikiClient) (username password wiki_url : string) :
  (connect (domain_of wiki_url) "/" "https" = None ->
     setup connect login w username password wiki_url = (false, w))
  /\ (forall pages,
        connect (domain_of wiki_url) "/" "https" = Some pages ->
        login username password = false ->
        fst (setup connect login w username password wiki_url) = false
        /\ site (snd (setup connect login w username password wiki_url)) = Some pages
        /\ forall api_ok title content,
             api_ok (requests w) = true ->
             fst (edit_page api_ok
                    (snd (setup connect login w username password wiki_url))
                    title content true) = true
             /\ page_text
                  (snd (edit_page api_ok
                          (snd (setup connect login w username password wiki_url))
                          title content true)) title
                = Some (match pages !! title with
                        | Some old => old ++ nl ++ nl ++ content
                        | None => content
                        end)).
Proof.
  unfold setup. split.
  - intros H. now rewrite H.
  - intros pages Hc Hl. rewrite Hc, Hl. simpl.
    split; [reflexivity|]. split; [reflexivity|].
    intros api_ok title content Hok.
    unfold edit_page, create_page, page_save, page_text. simpl.
    destruct (pages !! title) as [old|]; rewrite Hok; simpl;
      (split; [reflexivity | apply lookup_insert_eq]).
Qed.

Lemma setup_failed_login_stays_connected_witness :
  fst (setup (fun _ _ _ => Some ∅) (fun _ _ => false) Scenario.fresh_wiki
         "bot" "secret" "https://wiki.example.org") = false
  /\ page_text
       (snd (edit_page Scenario.wiki_up
               (snd (setup (fun _ _ _ => Some ∅) (fun _ _ => false) Scenario.fresh_wiki
                       "bot" "secret" "https://wiki.example.org"))
               "T" "text" true)) "T"
     = Some "text".
Proof.
  destruct (setup_failed_login_stays_connected (fun _ _ _ => Some ∅) (fun _ _ => false)
              Scenario.fresh_wiki "bot" "secret" "https://wiki.example.org")
    as [_ H].
  destruct (H ∅ eq_refl eq_refl) as [H1 [_ H3]].
  split; [exact H1|].
  exact (proj2 (H3 Scenario.wiki_up "T" "text" eq_refl)).
Defined.

End WikiMore.

(** * Further properties of the table of messages *)

Module DatabaseMore.
Import Database DatabaseFacts.

Lemma get_processed_messages_mark mid key db other :
  In other (get_processed_messages db) ->
  In other (get_processed_messages (snd (mark_message_as_processed db mid key))).
Proof.
  unfold mark_message_as_processed.
  destruct (scalar_one_or_none (filter_by_message_id mid db)); simpl; try tauto.
  unfold get_processed_messages. rewrite !List.in_map_iff.
  intros [x [E Hin]]. apply List.filter_In in Hin. destruct Hin as [Hin Hp].
  exists (if message_id x =? mid then set_processed key x else x).
  split; [now destruct (message_id x =? mid)|].
  apply List.filter_In. split.
  - apply List.in_map_iff. now exists x.
  - now destruct (message_id x =? mid).
Qed.

Lemma get_processed_messages_add (json_dumps : Py.dict -> string)
    db mid chat user txt dt an other :
  In other (get_processed_messages db) ->
  In other (get_processed_messages (snd (add_message json_dumps db mid chat user txt dt an))).
Proof.
  unfold add_message.
  destruct (scalar_one_or_none (filter_by_message_id mid db)); simpl; try tauto.
  unfold get_processed_messages. rewrite List.filter_app, List.map_app.
  intros H. apply List.in_or_app. now left.
Qed.

(** X1: The second [add_message] for an id returns the row the first one
    returned and stores nothing, whatever chat, author, text, date and
    analysis it is given: what was stored first is what stays. *)
Theorem add_message_twice_keeps_first_row
    (json_dumps : Py.dict -> string) (db : table)
    (mid chat user : Z) (txt : option string) (dt : string) (an : option Py.dict)
    (chat' user' : Z) (txt' : option string) (dt' : string) (an' : option Py.dict) :
  List.NoDup (map message_id db) ->
  let first := add_message json_dumps db mid chat user txt dt an in
  fst first <> None
  /\ add_message json_dumps (snd first) mid chat' user' txt' dt' an' = first.
Proof.
  intros Hnd. unfold add_message.
  destruct (filter_by_message_id_unique mid db Hnd) as [H|[r H]]; rewrite H; simpl.
  - split; [discriminate|].
    unfold filter_by_message_id in *. rewrite List.filter_app, H. simpl.
    now rewrite Z.eqb_refl.
  - split; [discriminate|]. now rewrite H.
Qed.

Lemma add_message_twice_keeps_first_row_witness :
  List.NoDup (map message_id [Scenario.published_row])
  /\ add_message Scenario.dumps
       (snd (add_message Scenario.dumps [Scenario.published_row] 2 10 20 (Some "hi")
               "2024-01-02 00:00:00" None))
       2 11 21 (Some "other") "2024-01-03 00:00:00" (Some [("title", Py.JStr "X")])
     = add_message Scenario.dumps [Scenario.published_row] 2 10 20 (Some "hi")
         "2024-01-02 00:00:00" None.
Proof.
  assert (H : List.NoDup (map message_id [Scenario.published_row])).
  { simpl. constructor; [simpl; tauto | constructor]. }
  split; [exact H|].
  exact (proj2 (add_message_twice_keeps_first_row Scenario.dumps [Scenario.published_row]
                  2 10 20 (Some "hi") "2024-01-02 00:00:00" None
                  11 21 (Some "other") "2024-01-03 00:00:00"
                  (Some [("title", Py.JStr "X")]) H)).
Defined.

Lemma filter_by_message_id_after_add (json_dumps : Py.dict -> string)
    db mid chat user txt dt an :
  List.NoDup (map message_id db) ->
  exists r, filter_by_message_id mid
              (snd (add_message json_dumps db mid chat user txt dt an)) = [r].
Proof.
  intros Hnd. unfold add_message.
  destruct (filter_by_message_id_unique mid db Hnd) as [H|[r H]]; rewrite H; simpl.
  - eexists. unfold filter_by_message_id in *. rewrite List.filter_app, H. simpl.
    rewrite Z.eqb_refl. reflexivity.
  - now exists r.
Qed.

Lemma mark_after_add
    (json_dumps : Py.dict -> string) (db : table)
    (mid chat user : Z) (txt : option string) (dt : string) (an : option Py.dict)
    (key : string) :
  List.NoDup (map message_id db) ->
  let db1 := snd (add_message json_dumps db mid chat user txt dt an) in
  let marked := mark_message_as_processed db1 mid key in
  fst marked = true
  /\ In mid (get_processed_messages (snd marked))
  /\ ~ In mid (map message_id (get_unprocessed_messages (snd marked)))
  /\ exists r, filter_by_message_id mid (snd marked) = [r]
               /\ wiki_page r = Some key /\ is_processed r = true.
Proof.
  intros Hnd db1 marked.
  destruct (filter_by_message_id_after_add json_dumps db mid chat user txt dt an Hnd)
    as [r Hr].
  fold db1 in Hr.
  assert (Em : marked = (true, map (fun x => if message_id x =? mid
                                             then set_processed key x else x) db1)).
  { unfold marked, mark_message_as_processed. now rewrite Hr. }
  rewrite Em. simpl.
  assert (Hf : filter_by_message_id mid
                 (map (fun x => if message_id x =? mid then set_processed key x else x) db1)
               = [set_processed key r])
    by now rewrite filter_by_message_id_mark, Hr.
  split; [reflexivity|]. split; [|split].
  - unfold get_processed_messages. apply List.in_map_iff.
    exists (set_processed key r).
    assert (Hin : In (set_processed key r)
                    (filter_by_message_id mid
                       (map (fun x => if message_id x =? mid
                                      then set_processed key x else x) db1)))
      by (rewrite Hf; now left).
    apply filter_by_message_id_In in Hin. destruct Hin as [Hin Hid].
    split; [exact Hid|]. apply List.filter_In. split; [exact Hin | reflexivity].
  - unfold get_unprocessed_messages. rewrite List.in_map_iff.
    intros [x [Hid Hin]]. apply List.filter_In in Hin. destruct Hin as [Hin Hp].
    apply List.in_map_iff in Hin. destruct Hin as [y [Ey _]].
    destruct (Z.eqb_spec (message_id y) mid) as [E|E]; subst x.
    + discriminate.
    + contradiction.
  - exists (set_processed key r). split; [exact Hf|]. split; reflexivity.
Qed.


(** X2: Storing a message and marking it: the mark succeeds, the id is
    among the processed ones and no longer among the unprocessed ones,
    and the one row of the id carries the page given. *)
Theorem add_then_mark_is_processed
    (json_dumps : Py.dict -> string) (db : table)
    (mid chat user : Z) (txt : option string) (dt : string) (an : option Py.dict)
    (key : string) :
  List.NoDup (map message_id db) ->
  let db1 := snd (add_message json_dumps db mid chat user txt dt an) in
  let marked := mark_message_as_processed db1 mid key in
  fst marked = true
  /\ In mid (get_processed_messages (snd marked))
  /\ ~ In mid (map message_id (get_unprocessed_messages (snd marked)))
  /\ exists r, filter_by_message_id mid (snd marked) = [r]
               /\ wiki_page r = Some key /\ is_processed r = true.
Proof. apply mark_after_add. Qed.

Lemma add_then_mark_is_processed_witness :
  List.NoDup (map message_id [Scenario.published_row])
  /\ In 2 (get_processed_messages
             (snd (mark_message_as_processed
                     (snd (add_message Scenario.dumps [Scenario.published_row] 2 10 20
                             (Some "hi") "2024-01-02 00:00:00" None)) 2 "Page"))).
Proof.
  assert (H : List.NoDup (map message_id [Scenario.published_row])).
  { simpl. constructor; [simpl; tauto | constructor]. }
  split; [exact H|].
  destruct (add_then_mark_is_processed Scenario.dumps [Scenario.published_row]
              2 10 20 (Some "hi") "2024-01-02 00:00:00" None "Page" H) as [_ [Hin _]].
  exact Hin.
Defined.

Lemma filter_by_message_id_mark_other mid key other db :
  other <> mid ->
  filter_by_message_id other (snd (mark_message_as_processed db mid key))
  = filter_by_message_id other db.
Proof.
  intros Hne. unfold mark_message_as_processed.
  destruct (scalar_one_or_none (filter_by_message_id mid db)); simpl; try reflexivity.
  unfold filter_by_message_id.
  induction db as [|x db IH]; simpl; [reflexivity|].
  destruct (Z.eqb_spec (message_id x) mid) as [E|E]; simpl.
  - rewrite E. destruct (Z.eqb_spec mid other) as [E'|E']; [congruence | apply IH].
  - destruct (message_id x =? other); [f_equal|]; apply IH.
Qed.

Lemma filter_by_message_id_add_other (json_dumps : Py.dict -> string)
    db mid chat user txt dt an other :
  other <> mid ->
  filter_by_message_id other (snd (add_message json_dumps db mid chat user txt dt an))
  = filter_by_message_id other db.
Proof.
  intros Hne. unfold add_message.
  destruct (scalar_one_or_none (filter_by_message_id mid db)); simpl; try reflexivity.
  unfold filter_by_message_id. rewrite List.filter_app. simpl.
  destruct (Z.eqb_spec mid other) as [E|E]; [congruence|]. apply List.app_nil_r.
Qed.

Lemma get_processed_messages_add_eq (json_dumps : Py.dict -> string)
    db mid chat user txt dt an :
  get_processed_messages (snd (add_message json_dumps db mid chat user txt dt an))
  = get_processed_messages db.
Proof.
  unfold add_message.
  destruct (scalar_one_or_none (filter_by_message_id mid db)); simpl; try reflexivity.
  unfold get_processed_messages. rewrite List.filter_app. simpl. now rewrite List.app_nil_r.
Qed.

Lemma add_message_NoDup (json_dumps : Py.dict -> string) db mid chat user txt dt an :
  List.NoDup (map message_id db) ->
  List.NoDup (map message_id (snd (add_message json_dumps db mid chat user txt dt an))).
Proof.
  intros Hnd. unfold add_message.
  destruct (filter_by_message_id mid db) as [|r0 [|r1 rest]] eqn:H; simpl; try exact Hnd.
  rewrite List.map_app. simpl.
  apply List.NoDup_app; [exact Hnd | repeat constructor; simpl; tauto |].
  intros x Hx [Hy|[]]. subst x.
  now apply (proj1 (filter_by_message_id_nil mid db)) in H.
Qed.

Lemma mark_message_as_processed_NoDup db mid key :
  List.NoDup (map message_id db) ->
  List.NoDup (map message_id (snd (mark_message_as_processed db mid key))).
Proof.
  intros Hnd. unfold mark_message_as_processed.
  destruct (scalar_one_or_none (filter_by_message_id mid db)); simpl; try exact Hnd.
  now rewrite map_message_id_mark.
Qed.

Lemma message_id_unique_row (db : table) :
  List.NoDup (map message_id db) ->
  forall r r', In r db -> In r' db -> message_id r = message_id r' -> r = r'.
Proof.
  induction db as [|x db IH]; simpl; intros Hnd r r' Hr Hr' E; [contradiction|].
  inversion Hnd as [|? ? Hnotin Hnd']; subst.
  destruct Hr as [<-|Hr], Hr' as [<-|Hr'].
  - reflexivity.
  - exfalso. apply Hnotin. rewrite E. now apply List.in_map.
  - exfalso. apply Hnotin. rewrite <- E. now apply List.in_map.
  - now apply IH.
Qed.

(** X3: The two listings split the table: every row is counted by exactly
    one of [get_processed_messages] and [get_unprocessed_messages], the
    unprocessed rows are those with the flag off, and with one row per id
    no id is in both. *)
Theorem processed_and_unprocessed_split (db : table) :
  (length (get_processed_messages db) + length (get_unprocessed_messages db)
   = length db)%nat
  /\ (forall r, In r (get_unprocessed_messages db) <-> In r db /\ is_processed r = false)
  /\ (forall mid, In mid (get_processed_messages db) <->
                  exists r, In r db /\ message_id r = mid /\ is_processed r = true)
  /\ (List.NoDup (map message_id db) ->
      forall mid, In mid (get_processed_messages db) ->
                  ~ In mid (map message_id (get_unprocessed_messages db))).
Proof.
  assert (Hp : forall mid, In mid (get_processed_messages db) <->
                 exists r, In r db /\ message_id r = mid /\ is_processed r = true).
  { intros mid. unfold get_processed_messages. rewrite List.in_map_iff. split.
    - intros [r [E Hin]]. apply List.filter_In in Hin. exists r. tauto.
    - intros [r [Hin [E Hproc]]]. exists r. split; [exact E|].
      apply List.filter_In. tauto. }
  assert (Hu : forall r, In r (get_unprocessed_messages db)
                         <-> In r db /\ is_processed r = false).
  { intros r. unfold get_unprocessed_messages. rewrite List.filter_In.
    destruct (is_processed r); simpl; intuition congruence. }
  split; [|split; [exact Hu | split; [exact Hp|]]].
  - unfold get_processed_messages, get_unprocessed_messages.
    rewrite List.length_map. clear Hp Hu.
    induction db as [|r db IH]; simpl; [reflexivity|].
    destruct (is_processed r); simpl; lia.
  - intros Hnd mid Hin Hin'.
    apply Hp in Hin. destruct Hin as [r [Hr [E Hproc]]].
    apply List.in_map_iff in Hin'. destruct Hin' as [r' [E' Hr']].
    apply Hu in Hr'. destruct Hr' as [Hr' Hun].
    assert (r = r') by (apply (message_id_unique_row db Hnd); congruence).
    subst r'. congruence.
Qed.

Lemma processed_and_unprocessed_split_witness :
  List.NoDup (map message_id [Scenario.published_row])
  /\ In 1 (get_processed_messages [Scenario.published_row])
  /\ ~ In 1 (map message_id (get_unprocessed_messages [Scenario.published_row])).
Proof.
  assert (H : List.NoDup (map message_id [Scenario.published_row])).
  { simpl. constructor; [simpl; tauto | constructor]. }
  assert (Hin : In 1 (get_processed_messages [Scenario.published_row]))
    by (simpl; tauto).
  split; [exact H|]. split; [exact Hin|].
  destruct (processed_and_unprocessed_split [Scenario.published_row]) as [_ [_ [_ Hx]]].
  exact (Hx H 1 Hin).
Defined.

(** X4: No operation of the table takes a message back: an id that is among
    the processed ones is still among them after any [add_message] and
    after any [mark_message_as_processed]. *)
Theorem processed_ids_only_grow (json_dumps : Py.dict -> string) (db : table) (other : Z) :
  In other (get_processed_messages db) ->
  (forall mid chat user txt dt an,
      In other (get_processed_messages
                  (snd (add_message json_dumps db mid chat user txt dt an))))
  /\ (forall mid key,
        In other (get_processed_messages (snd (mark_message_as_processed db mid key)))).
Proof.
  intros H. split.
  - intros. now apply get_processed_messages_add.
  - intros. now apply get_processed_messages_mark.
Qed.

Lemma processed_ids_only_grow_witness :
  In 1 (get_processed_messages [Scenario.published_row])
  /\ In 1 (get_processed_messages
             (snd (mark_message_as_processed [Scenario.published_row] 1 "B"))).
Proof.
  assert (H : In 1 (get_processed_messages [Scenario.published_row])) by (simpl; tauto).
  split; [exact H|].
  exact (proj2 (processed_ids_only_grow Scenario.dumps [Scenario.published_row] 1 H) 1 "B").
Defined.

End DatabaseMore.

(** * Further properties of the two processing paths *)

Module MainMore.
Import Main MainFacts.

Section Paths.

Variable json_dumps : Py.dict -> string.
Variable api_ok : nat -> bool.
Variable generate : nat -> string -> Ollama.http_reply.
Variable json_loads : string -> option Py.dict.
Variable format_value : Py.json -> string.
Variable get_messages : nat -> Z -> Z -> option (list TgMessage).

#[local] Abbreviation handle_message :=
  (Main.handle_message json_dumps api_ok generate json_loads format_value).
#[local] Abbreviation setup_message :=
  (Main.setup_message json_dumps api_ok generate json_loads format_value).
#[local] Abbreviation setup_page :=
  (Main.setup_page json_dumps api_ok generate json_loads format_value).
#[local] Abbreviation setup_history :=
  (Main.setup_history json_dumps api_ok generate json_loads format_value get_messages).
#[local] Abbreviation analyze_text := (Ollama.analyze_text generate json_loads).
#[local] Abbreviation edit_title b analysis message :=
  (Wiki.edit_page api_ok (wiki_client b)
     (format format_value (page_title analysis (id message)))
     (page_content format_value (page_title analysis (id message)) message) true).
#[local] Abbreviation add_row db message an :=
  (Database.add_message json_dumps db (id message) (chat_id message)
     (sender_id message) (text message) (date message) an).

(** The handler of new messages, with its steps named. *)
Lemma handle_message_steps (b : TelegramUserClient) (event : TgMessage) :
  handle_message b event
  = if out event then b
    else
      match fst (add_row (db b) event None) with
      | None => b
      | Some _ =>
          let db1 := snd (add_row (db b) event None) in
          let oc := snd (analyze_text (ollama_client b) (text event)) in
          match fst (analyze_text (ollama_client b) (text event)) with
          | None => {| db := db1; wiki_client := wiki_client b; ollama_client := oc |}
          | Some analysis =>
              if Py.truthy analysis
              then {| db := if fst (edit_title b analysis event)
                            then snd (Database.mark_message_as_processed db1 (id event)
                                        (format format_value
                                           (page_title analysis (id event))))
                            else db1;
                      wiki_client := snd (edit_title b analysis event);
                      ollama_client := oc |}
              else {| db := db1; wiki_client := wiki_client b; ollama_client := oc |}
          end
      end.
Proof.
  unfold Main.handle_message. destruct (out event); [reflexivity|].
  destruct (add_row (db b) event None) as [[m|] db1]; [|reflexivity]. simpl.
  destruct (analyze_text (ollama_client b) (text event)) as [[analysis|] oc];
    [|reflexivity]. simpl.
  destruct (Py.truthy analysis); [|reflexivity]. simpl.
  destruct (edit_title b analysis event) as [[|] wc]; reflexivity.
Qed.

(** The body of the history loop, with its steps named. *)
Lemma setup_message_steps (processed : list Z) (h : History) (message : TgMessage) :
  setup_message processed h message
  = if negb (has_text (text message)) then h
    else if existsb (Z.eqb (id message)) processed
    then {| bot := bot h; total_processed := total_processed h;
            total_skipped := S (total_skipped h); fetched := fetched h |}
    else
      let b := bot h in
      let oc := snd (analyze_text (ollama_client b) (text message)) in
      let unanalysed :=
        {| bot := {| db := db b; wiki_client := wiki_client b; ollama_client := oc |};
           total_processed := total_processed h;
           total_skipped := total_skipped h; fetched := fetched h |} in
      match fst (analyze_text (ollama_client b) (text message)) with
      | None => unanalysed
      | Some analysis =>
          if Py.truthy analysis
          then
            let ok := fst (edit_title b analysis message) in
            let db1 := if ok
                       then snd (Database.mark_message_as_processed (db b) (id message)
                                   (format format_value
                                      (page_title analysis (id message))))
                       else db b in
            {| bot := {| db := snd (add_row db1 message (Some analysis));
                         wiki_client := snd (edit_title b analysis message);
                         ollama_client := oc |};
               total_processed := if ok then S (total_processed h) else total_processed h;
               total_skipped := total_skipped h; fetched := fetched h |}
          else unanalysed
      end.
Proof.
  unfold Main.setup_message. destruct (has_text (text message)); [|reflexivity]. simpl.
  destruct (existsb (Z.eqb (id message)) processed); [reflexivity|]. simpl.
  destruct (analyze_text (ollama_client (bot h)) (text message)) as [[analysis|] oc];
    [|reflexivity]. simpl.
  destruct (Py.truthy analysis); [|reflexivity]. simpl.
  destruct (edit_title (bot h) analysis message) as [[|] wc]; reflexivity.
Qed.

(** What holds of the table before a path runs and is kept by the two
    writing operations holds after it. *)
Lemma handle_message_keeps (P : Database.table -> Prop) :
  (forall db mid chat user txt dt an,
      P db -> P (snd (Database.add_message json_dumps db mid chat user txt dt an))) ->
  (forall db mid key, P db -> P (snd (Database.mark_message_as_processed db mid key))) ->
  forall b event, P (db b) -> P (db (handle_message b event)).
Proof.
  intros Hadd Hmark b event H. rewrite handle_message_steps.
  destruct (out event); [exact H|].
  destruct (fst (add_row (db b) event None)); [|exact H]. cbv zeta.
  destruct (fst (analyze_text (ollama_client b) (text event))) as [analysis|];
    [|now apply Hadd].
  destruct (Py.truthy analysis); [|now apply Hadd]. simpl.
  destruct (fst (edit_title b analysis event)); [apply Hmark|]; now apply Hadd.
Qed.

Lemma setup_message_keeps (P : Database.table -> Prop) :
  (forall db mid chat user txt dt an,
      P db -> P (snd (Database.add_message json_dumps db mid chat user txt dt an))) ->
  (forall db mid key, P db -> P (snd (Database.mark_message_as_processed db mid key))) ->
  forall processed h message,
    P (db (bot h)) -> P (db (bot (setup_message processed h message))).
Proof.
  intros Hadd Hmark processed h message H. rewrite setup_message_steps.
  destruct (negb (has_text (text message))); [exact H|].
  destruct (existsb (Z.eqb (id message)) processed); [exact H|]. cbv zeta.
  destruct (fst (analyze_text (ollama_client (bot h)) (text message))) as [analysis|];
    [|exact H].
  destruct (Py.truthy analysis); [|exact H]. simpl.
  apply Hadd. destruct (fst (edit_title (bot h) analysis message)); [now apply Hmark | exact H].
Qed.

Lemma setup_page_keeps (P : Database.table -> Prop) :
  (forall db mid chat user txt dt an,
      P db -> P (snd (Database.add_message json_dumps db mid chat user txt dt an))) ->
  (forall db mid key, P db -> P (snd (Database.mark_message_as_processed db mid key))) ->
  forall messages h, P (db (bot h)) -> P (db (bot (setup_page h messages))).
Proof.
  intros Hadd Hmark messages h. unfold Main.setup_page.
  generalize (Database.get_processed_messages (db (bot h))) as processed.
  intros processed. revert h.
  induction messages as [|m ms IH]; intros h H; simpl; [exact H|].
  apply IH. now apply setup_message_keeps.
Qed.

Lemma setup_history_keeps (P : Database.table -> Prop) :
  (forall db mid chat user txt dt an,
      P db -> P (snd (Database.add_message json_dumps db mid chat user txt dt an))) ->
  (forall db mid key, P db -> P (snd (Database.mark_message_as_processed db mid key))) ->
  forall fuel offset_id h h',
    P (db (bot h)) -> setup_history fuel offset_id h = Some h' -> P (db (bot h')).
Proof.
  intros Hadd Hmark fuel.
  induction fuel as [|fuel IH]; intros offset_id h h' H; simpl; [discriminate|].
  destruct (get_messages (length (fetched h)) limit offset_id) as [[|first rest]|].
  - now intros [= <-].
  - apply IH. now apply setup_page_keeps.
  - now intros [= <-].
Qed.

Lemma analyze_text_posted (c : Ollama.OllamaClient) (text : option string) :
  Ollama.posted (snd (analyze_text c text)) = Ollama.posted c
  \/ exists t, text = Some t
               /\ Ollama.posted (snd (analyze_text c text))
                  = (Ollama.posted c ++ [Ollama.prompt t])%list.
Proof.
  unfold Ollama.analyze_text. destruct text as [t|]; [|now left].
  destruct (Ollama.session c); simpl; [|now left].
  right. exists t. split; [reflexivity|].
  destruct (generate (length (Ollama.posted c)) (Ollama.prompt t)) as [|status body];
    [reflexivity|].
  destruct (status =? 200); simpl; [|reflexivity].
  destruct body as [[| | | | | |result]|]; try reflexivity.
  destruct (Py.dict_lookup "response" result) as [[]|]; reflexivity.
Qed.

(** One message in the history loop: a save is made exactly when the
    message is counted as processed, the counters move by one at most,
    and the processed ids change only when a save was made. *)
Lemma setup_message_effects (processed : list Z) (h : History) (message : TgMessage) :
  let h1 := setup_message processed h message in
  (length (Wiki.saved (wiki_client (bot h1))) + total_processed h
   = length (Wiki.saved (wiki_client (bot h))) + total_processed h1)%nat
  /\ (total_processed h <= total_processed h1)%nat
  /\ (total_skipped h <= total_skipped h1)%nat
  /\ (total_processed h1 + total_skipped h1
      <= S (total_processed h + total_skipped h))%nat
  /\ (total_processed h1 = total_processed h ->
      Database.get_processed_messages (db (bot h1))
      = Database.get_processed_messages (db (bot h))).
Proof.
  cbv zeta. rewrite setup_message_steps.
  destruct (negb (has_text (text message))); [repeat split; lia|].
  destruct (existsb (Z.eqb (id message)) processed); simpl; [repeat split; lia|].
  destruct (fst (analyze_text (ollama_client (bot h)) (text message))) as [analysis|];
    simpl; [|repeat split; lia].
  destruct (Py.truthy analysis); simpl; [|repeat split; lia].
  pose proof (WikiFacts.edit_page_saved_length api_ok (wiki_client (bot h))
                (format format_value (page_title analysis (id message)))
                (page_content format_value (page_title analysis (id message)) message)
                true) as L.
  destruct (fst (edit_title (bot h) analysis message)); rewrite L.
  - repeat split; try lia.
  - repeat split; try lia. intros _.
    apply DatabaseMore.get_processed_messages_add_eq.
Qed.

Lemma setup_messages_effects (processed : list Z) (messages : list TgMessage) :
  forall h,
  let h1 := fold_left (setup_message processed) messages h in
  (length (Wiki.saved (wiki_client (bot h1))) + total_processed h
   = length (Wiki.saved (wiki_client (bot h))) + total_processed h1)%nat
  /\ (total_processed h <= total_processed h1)%nat
  /\ (total_skipped h <= total_skipped h1)%nat
  /\ (total_processed h1 + total_skipped h1
      <= length messages + (total_processed h + total_skipped h))%nat
  /\ (total_processed h1 = total_processed h ->
      Database.get_processed_messages (db (bot h1))
      = Database.get_processed_messages (db (bot h))).
Proof.
  induction messages as [|m ms IH]; intros h; simpl; [repeat split; lia|].
  destruct (setup_message_effects processed h m) as [A [B [C [D E]]]].
  destruct (IH (setup_message processed h m)) as [A' [B' [C' [D' E']]]].
  cbv zeta in *. repeat split; try lia.
  intros Heq. rewrite E' by lia. apply E. lia.
Qed.

Lemma run_ids_app (run1 run2 : list (Z * option (list TgMessage))) :
  run_ids (run1 ++ run2)%list = (run_ids run1 ++ run_ids run2)%list.
Proof. unfold run_ids. now rewrite List.map_app, List.concat_app. Qed.

Lemma setup_history_effects (fuel : nat) : forall offset_id h h',
  setup_history fuel offset_id h = Some h' ->
  (length (Wiki.saved (wiki_client (bot h'))) + total_processed h
   = length (Wiki.saved (wiki_client (bot h))) + total_processed h')%nat
  /\ (total_processed h <= total_processed h')%nat
  /\ (total_skipped h <= total_skipped h')%nat
  /\ (total_processed h' + total_skipped h' + length (visited h)
      <= total_processed h + total_skipped h + length (visited h'))%nat
  /\ (total_processed h' = total_processed h ->
      Database.get_processed_messages (db (bot h'))
      = Database.get_processed_messages (db (bot h))).
Proof.
  induction fuel as [|fuel IH]; intros offset_id h h'; simpl; [discriminate|].
  destruct (get_messages (length (fetched h)) limit offset_id) as [[|first rest]|] eqn:G.
  - intros [= <-]. unfold visited. simpl. rewrite run_ids_app, List.length_app.
    repeat split; lia.
  - intros H. apply IH in H. destruct H as [A [B [C [D E]]]].
    unfold Main.setup_page in *.
    set (h0 := record_request h offset_id (Some (first :: rest))) in *.
    destruct (setup_messages_effects
                (Database.get_processed_messages (db (bot h0))) (first :: rest) h0)
      as [A' [B' [C' [D' E']]]].
    cbv zeta in *.
    set (h1 := fold_left _ (first :: rest) h0) in *.
    assert (V1 : visited h1 = visited h0).
    { unfold visited. f_equal.
      exact (setup_page_fetched json_dumps api_ok generate json_loads
               format_value (first :: rest) h0). }
    assert (V0 : length (visited h0) = (length (visited h) + length (first :: rest))%nat).
    { unfold visited, h0. simpl fetched. rewrite run_ids_app, List.length_app.
      unfold run_ids. simpl. rewrite List.app_nil_r, List.length_map. reflexivity. }
    rewrite V1 in D.
    change (total_processed h0) with (total_processed h) in *.
    change (total_skipped h0) with (total_skipped h) in *.
    change (bot h0) with (bot h) in *.
    repeat split; try lia.
    intros Heq. rewrite E by lia. apply E'. lia.
  - intros [= <-]. unfold visited. simpl. rewrite run_ids_app, List.length_app.
    repeat split; lia.
Qed.

End Paths.

(** X15: Both paths keep one row per message: when no two rows of the table
    share a message id, none do after the handler of new messages, nor
    after the history loop when it returns. *)
Theorem paths_keep_one_row_per_message
    (json_dumps : Py.dict -> string) (api_ok : nat -> bool)
    (generate : nat -> string -> Ollama.http_reply)
    (json_loads : string -> option Py.dict)
    (format_value : Py.json -> string)
    (get_messages : nat -> Z -> Z -> option (list TgMessage)) :
  (forall b event,
      List.NoDup (map Database.message_id (db b)) ->
      List.NoDup
        (map Database.message_id
           (db (Main.handle_message json_dumps api_ok generate json_loads format_value
                  b event))))
  /\ (forall fuel offset_id h h',
        List.NoDup (map Database.message_id (db (bot h))) ->
        Main.setup_history json_dumps api_ok generate json_loads format_value
          get_messages fuel offset_id h = Some h' ->
        List.NoDup (map Database.message_id (db (bot h')))).
Proof.
  split.
  - apply (handle_message_keeps json_dumps api_ok generate json_loads format_value
             (fun t => List.NoDup (map Database.message_id t))).
    + intros. now apply DatabaseMore.add_message_NoDup.
    + intros. now apply DatabaseMore.mark_message_as_processed_NoDup.
  - apply (setup_history_keeps json_dumps api_ok generate json_loads format_value
             get_messages (fun t => List.NoDup (map Database.message_id t))).
    + intros. now apply DatabaseMore.add_message_NoDup.
    + intros. now apply DatabaseMore.mark_message_as_processed_NoDup.
Qed.

Lemma paths_keep_one_row_per_message_witness :
  List.NoDup (map Database.message_id [Scenario.published_row])
  /\ List.NoDup
       (map Database.message_id
          (db (Main.handle_message Scenario.dumps Scenario.wiki_up
                 Scenario.titled_service Scenario.loads Scenario.no_format
                 {| db := [Scenario.published_row];
                    wiki_client := Scenario.fresh_wiki;
                    ollama_client := Scenario.fresh_ollama |}
                 (Scenario.message_of 1 (Some "hello"))))).
Proof.
  assert (H : List.NoDup (map Database.message_id [Scenario.published_row])).
  { simpl. constructor; [simpl; tauto | constructor]. }
  split; [exact H|].
  exact (proj1 (paths_keep_one_row_per_message Scenario.dumps Scenario.wiki_up
                  Scenario.titled_service Scenario.loads Scenario.no_format
                  (conversation_page []))
           {| db := [Scenario.published_row];
              wiki_client := Scenario.fresh_wiki;
              ollama_client := Scenario.fresh_ollama |}
           (Scenario.message_of 1 (Some "hello")) H).
Defined.

(** X16: Neither path takes a message back: an id that is among the processed
    ones before the handler of new messages or the history loop runs is
    among them afterwards. *)
Theorem paths_keep_processed_ids
    (json_dumps : Py.dict -> string) (api_ok : nat -> bool)
    (generate : nat -> string -> Ollama.http_reply)
    (json_loads : string -> option Py.dict)
    (format_value : Py.json -> string)
    (get_messages : nat -> Z -> Z -> option (list TgMessage)) (mid : Z) :
  (forall b event,
      In mid (Database.get_processed_messages (db b)) ->
      In mid (Database.get_processed_messages
                (db (Main.handle_message json_dumps api_ok generate json_loads
                       format_value b event))))
  /\ (forall fuel offset_id h h',
        In mid (Database.get_processed_messages (db (bot h))) ->
        Main.setup_history json_dumps api_ok generate json_loads format_value
          get_messages fuel offset_id h = Some h' ->
        In mid (Database.get_processed_messages (db (bot h')))).
Proof.
  split.
  - apply (handle_message_keeps json_dumps api_ok generate json_loads format_value
             (fun t => In mid (Database.get_processed_messages t))).
    + intros. now apply DatabaseMore.get_processed_messages_add.
    + intros. now apply DatabaseMore.get_processed_messages_mark.
  - apply (setup_history_keeps json_dumps api_ok generate json_loads format_value
             get_messages (fun t => In mid (Database.get_processed_messages t))).
    + intros. now apply DatabaseMore.get_processed_messages_add.
    + intros. now apply DatabaseMore.get_processed_messages_mark.
Qed.

Lemma paths_keep_processed_ids_witness :
  In 1 (Database.get_processed_messages [Scenario.published_row])
  /\ In 1 (Database.get_processed_messages
             (db (Main.handle_message Scenario.dumps Scenario.wiki_up
                    Scenario.titled_service Scenario.loads Scenario.no_format
                    {| db := [Scenario.published_row];
                       wiki_client := Scenario.fresh_wiki;
                       ollama_client := Scenario.fresh_ollama |}
                    (Scenario.message_of 2 (Some "hello"))))).
Proof.
  assert (H : In 1 (Database.get_processed_messages [Scenario.published_row]))
    by (simpl; tauto).
  split; [exact H|].
  exact (proj1 (paths_keep_processed_ids Scenario.dumps Scenario.wiki_up
                  Scenario.titled_service Scenario.loads Scenario.no_format
                  (conversation_page []) 1)
           {| db := [Scenario.published_row];
              wiki_client := Scenario.fresh_wiki;
              ollama_client := Scenario.fresh_ollama |}
           (Scenario.message_of 2 (Some "hello")) H).
Defined.

(** X17: The count the history loop reports is the number of saves it made:
    when the loop returns, the pages saved have grown by as much as
    [total_processed]; neither counter goes down, and together they count
    at most the messages the loop went through. *)
Theorem history_counts_what_it_saves
    (json_dumps : Py.dict -> string) (api_ok : nat -> bool)
    (generate : nat -> string -> Ollama.http_reply)
    (json_loads : string -> option Py.dict)
    (format_value : Py.json -> string)
    (get_messages : nat -> Z -> Z -> option (list TgMessage))
    (fuel : nat) (offset_id : Z) (h h' : History) :
  Main.setup_history json_dumps api_ok generate json_loads format_value get_messages
    fuel offset_id h = Some h' ->
  (length (Wiki.saved (wiki_client (bot h'))) + total_processed h
   = length (Wiki.saved (wiki_client (bot h))) + total_processed h')%nat
  /\ (total_processed h <= total_processed h')%nat
  /\ (total_skipped h <= total_skipped h')%nat
  /\ (total_processed h' + total_skipped h' + length (visited h)
      <= total_processed h + total_skipped h + length (visited h'))%nat.
Proof.
  intros H.
  destruct (setup_history_effects json_dumps api_ok generate json_loads format_value
              get_messages fuel offset_id h h' H) as [A [B [C [D _]]]].
  auto.
Qed.

Lemma history_counts_what_it_saves_witness :
  exists h',
    Main.setup_history Scenario.dumps Scenario.wiki_up Scenario.titled_service
      Scenario.loads Scenario.no_format (conversation_page (Scenario.conversation 3))
      2 0 Scenario.fresh_history = Some h'
    /\ (length (Wiki.saved (wiki_client (bot h'))) + 0
        = length (Wiki.saved (wiki_client (bot Scenario.fresh_history)))
          + total_processed h')%nat.
Proof.
  eexists. split; [vm_compute; reflexivity|].
  refine (proj1 (history_counts_what_it_saves Scenario.dumps Scenario.wiki_up
                   Scenario.titled_service Scenario.loads Scenario.no_format
                   (conversation_page (Scenario.conversation 3)) 2 0
                   Scenario.fresh_history _ _)).
  vm_compute. reflexivity.
Defined.

(** X18: Nothing is marked without a save: when a path has saved no page, the
    processed ids are the same after it as before.  This holds for the
    handler of new messages and for the history loop when it returns. *)
Theorem nothing_marked_without_a_save
    (json_dumps : Py.dict -> string) (api_ok : nat -> bool)
    (generate : nat -> string -> Ollama.http_reply)
    (json_loads : string -> option Py.dict)
    (format_value : Py.json -> string)
    (get_messages : nat -> Z -> Z -> option (list TgMessage)) :
  (forall b event,
      let b' := Main.handle_message json_dumps api_ok generate json_loads format_value
                  b event in
      length (Wiki.saved (wiki_client b')) = length (Wiki.saved (wiki_client b)) ->
      Database.get_processed_messages (db b') = Database.get_processed_messages (db b))
  /\ (forall fuel offset_id h h',
        Main.setup_history json_dumps api_ok generate json_loads format_value
          get_messages fuel offset_id h = Some h' ->
        length (Wiki.saved (wiki_client (bot h')))
        = length (Wiki.saved (wiki_client (bot h))) ->
        Database.get_processed_messages (db (bot h'))
        = Database.get_processed_messages (db (bot h))).
Proof.
  split.
  - intros b event. cbv zeta.
    rewrite (handle_message_steps json_dumps api_ok generate json_loads format_value).
    destruct (out event); [reflexivity|].
    destruct (fst (Database.add_message json_dumps (db b) (id event) (chat_id event)
                     (sender_id event) (text event) (date event) None));
      [|reflexivity].
    cbv zeta.
    destruct (fst (Ollama.analyze_text generate json_loads (ollama_client b) (text event)))
      as [analysis|]; simpl;
      [|intros _; apply DatabaseMore.get_processed_messages_add_eq].
    destruct (Py.truthy analysis); simpl;
      [|intros _; apply DatabaseMore.get_processed_messages_add_eq].
    pose proof (WikiFacts.edit_page_saved_length api_ok (wiki_client b)
                  (format format_value (page_title analysis (id event)))
                  (page_content format_value (page_title analysis (id event)) event)
                  true) as L.
    destruct (fst (Wiki.edit_page api_ok (wiki_client b) _ _ true)); rewrite L.
    + intros Habs. lia.
    + intros _. apply DatabaseMore.get_processed_messages_add_eq.
  - intros fuel offset_id h h' H Hlen.
    destruct (setup_history_effects json_dumps api_ok generate json_loads format_value
                get_messages fuel offset_id h h' H) as [A [_ [_ [_ E]]]].
    apply E. lia.
Qed.

Lemma nothing_marked_without_a_save_witness :
  length (Wiki.saved
            (wiki_client
               (Main.handle_message Scenario.dumps Scenario.wiki_down
                  Scenario.titled_service Scenario.loads Scenario.no_format
                  Scenario.fresh_bot (Scenario.message_of 1 (Some "hello")))))
  = length (Wiki.saved (wiki_client Scenario.fresh_bot))
  /\ Database.get_processed_messages
       (db (Main.handle_message Scenario.dumps Scenario.wiki_down
              Scenario.titled_service Scenario.loads Scenario.no_format
              Scenario.fresh_bot (Scenario.message_of 1 (Some "hello"))))
     = Database.get_processed_messages (db Scenario.fresh_bot).
Proof.
  split; [reflexivity|].
  apply (proj1 (nothing_marked_without_a_save Scenario.dumps Scenario.wiki_down
                  Scenario.titled_service Scenario.loads Scenario.no_format
                  (conversation_page []))).
  reflexivity.
Defined.

(** X19: The handler of new messages records what it publishes: for a message
    not sent by the account itself, when the analysis gives a dictionary
    with a text title and the page is saved, the row of the message is
    processed and carries that title; a later pass of the history loop
    over the same message then leaves everything as it is. *)
Theorem handle_message_records_publication
    (json_dumps : Py.dict -> string) (api_ok : nat -> bool)
    (generate : nat -> string -> Ollama.http_reply)
    (json_loads : string -> option Py.dict)
    (format_value : Py.json -> string)
    (b : TelegramUserClient) (event : TgMessage)
    (analysis : Py.dict) (title : string) :
  out event = false ->
  List.NoDup (map Database.message_id (db b)) ->
  fst (Ollama.analyze_text generate json_loads (ollama_client b) (text event))
    = Some analysis ->
  Py.truthy analysis = true ->
  page_title analysis (id event) = Py.JStr title ->
  fst (Wiki.edit_page api_ok (wiki_client b) title
         (page_content format_value (Py.JStr title) event) true) = true ->
  let b' := Main.handle_message json_dumps api_ok generate json_loads format_value
              b event in
  In (id event) (Database.get_processed_messages (db b'))
  /\ (exists r, Database.filter_by_message_id (id event) (db b') = [r]
                /\ Database.wiki_page r = Some title
                /\ Database.is_processed r = true)
  /\ (forall h, bot h = b' ->
        bot (Main.setup_page json_dumps api_ok generate json_loads format_value
               h [event]) = b').
Proof.
  intros Hout Hnd Han Htruthy Htitle Hedit b'.
  assert (Eb : db b'
               = snd (Database.mark_message_as_processed
                        (snd (Database.add_message json_dumps (db b) (id event)
                                (chat_id event) (sender_id event) (text event)
                                (date event) None))
                        (id event) title)).
  { unfold b'.
    rewrite (handle_message_steps json_dumps api_ok generate json_loads format_value).
    rewrite Hout.
    destruct (DatabaseFacts.add_message_returns_row json_dumps (db b) (id event)
                (chat_id event) (sender_id event) (text event) (date event) None Hnd)
      as [r Hr].
    rewrite Hr. cbv zeta. rewrite Han, Htruthy, Htitle. simpl format.
    rewrite Hedit. reflexivity. }
  destruct (DatabaseMore.mark_after_add json_dumps (db b) (id event) (chat_id event)
              (sender_id event) (text event) (date event) None title Hnd)
    as [_ [Hin [_ Hrow]]].
  cbv zeta in Hin, Hrow. rewrite <- Eb in Hin, Hrow.
  split; [exact Hin|]. split; [exact Hrow|].
  intros h Hh. unfold Main.setup_page. simpl.
  rewrite (setup_message_steps json_dumps api_ok generate json_loads format_value).
  destruct (negb (has_text (text event))); [exact Hh|].
  rewrite Hh.
  assert (E : existsb (Z.eqb (id event)) (Database.get_processed_messages (db b')) = true).
  { apply List.existsb_exists. exists (id event). split; [exact Hin | apply Z.eqb_refl]. }
  rewrite E. reflexivity.
Qed.

Lemma handle_message_records_publication_witness :
  let b' := Main.handle_message Scenario.dumps Scenario.wiki_up Scenario.titled_service
              Scenario.loads Scenario.no_format Scenario.fresh_bot
              (Scenario.message_of 1 (Some "hello")) in
  out (Scenario.message_of 1 (Some "hello")) = false
  /\ In 1 (Database.get_processed_messages (db b')).
Proof.
  split; [reflexivity|].
  destruct (handle_message_records_publication Scenario.dumps Scenario.wiki_up
              Scenario.titled_service Scenario.loads Scenario.no_format
              Scenario.fresh_bot (Scenario.message_of 1 (Some "hello"))
              [("title", Py.JStr "X")] "X") as [H _];
    [reflexivity | constructor | reflexivity | reflexivity | reflexivity | reflexivity |].
  exact H.
Defined.

(** X20: A message touches its own row only and costs one request and one
    save at most: after the handler of new messages, and after the body
    of the history loop, the rows of the other ids are as before; the
    handler does nothing for a message of the account itself, sends the
    text of the message or nothing to the analysis service, and makes at
    most one save. *)
Theorem handle_message_touches_one_message
    (json_dumps : Py.dict -> string) (api_ok : nat -> bool)
    (generate : nat -> string -> Ollama.http_reply)
    (json_loads : string -> option Py.dict)
    (format_value : Py.json -> string)
    (b : TelegramUserClient) (event : TgMessage) :
  let b' := Main.handle_message json_dumps api_ok generate json_loads format_value
              b event in
  (out event = true -> b' = b)
  /\ (forall other, other <> id event ->
        Database.filter_by_message_id other (db b')
        = Database.filter_by_message_id other (db b))
  /\ (forall processed h other, bot h = b -> other <> id event ->
        Database.filter_by_message_id other
          (db (bot (Main.setup_message json_dumps api_ok generate json_loads
                      format_value processed h event)))
        = Database.filter_by_message_id other (db b))
  /\ (Ollama.posted (ollama_client b') = Ollama.posted (ollama_client b)
      \/ exists t, text event = Some t
                   /\ Ollama.posted (ollama_client b')
                      = (Ollama.posted (ollama_client b) ++ [Ollama.prompt t])%list)
  /\ (length (Wiki.saved (wiki_client b)) <= length (Wiki.saved (wiki_client b'))
      <= S (length (Wiki.saved (wiki_client b))))%nat.
Proof.
  cbv zeta. split; [|split; [|split; [|split]]].
  - intros H. unfold Main.handle_message. now rewrite H.
  - intros other Hne.
    rewrite (handle_message_steps json_dumps api_ok generate json_loads format_value).
    destruct (out event); [reflexivity|].
    destruct (fst (Database.add_message json_dumps (db b) (id event) (chat_id event)
                     (sender_id event) (text event) (date event) None));
      [|reflexivity].
    cbv zeta.
    destruct (fst (Ollama.analyze_text generate json_loads (ollama_client b) (text event)))
      as [analysis|]; simpl;
      [|now apply DatabaseMore.filter_by_message_id_add_other].
    destruct (Py.truthy analysis); simpl;
      [|now apply DatabaseMore.filter_by_message_id_add_other].
    destruct (fst (Wiki.edit_page api_ok (wiki_client b) _ _ true));
      [rewrite DatabaseMore.filter_by_message_id_mark_other by exact Hne|];
      now apply DatabaseMore.filter_by_message_id_add_other.
  - intros processed h other <- Hne.
    rewrite (setup_message_steps json_dumps api_ok generate json_loads format_value).
    destruct (negb (has_text (text event))); [reflexivity|].
    destruct (existsb (Z.eqb (id event)) processed); [reflexivity|]. cbv zeta.
    destruct (fst (Ollama.analyze_text generate json_loads (ollama_client (bot h))
                     (text event))) as [analysis|]; [|reflexivity].
    destruct (Py.truthy analysis); [|reflexivity]. simpl.
    rewrite DatabaseMore.filter_by_message_id_add_other by exact Hne.
    destruct (fst (Wiki.edit_page api_ok (wiki_client (bot h)) _ _ true));
      [now apply DatabaseMore.filter_by_message_id_mark_other | reflexivity].
  - rewrite (handle_message_steps json_dumps api_ok generate json_loads format_value).
    destruct (out event); [now left|].
    destruct (fst (Database.add_message json_dumps (db b) (id event) (chat_id event)
                     (sender_id event) (text event) (date event) None));
      [|now left].
    cbv zeta.
    pose proof (analyze_text_posted generate json_loads (ollama_client b) (text event))
      as P.
    destruct (fst (Ollama.analyze_text generate json_loads (ollama_client b) (text event)))
      as [analysis|]; [|exact P].
    destruct (Py.truthy analysis); exact P.
  - rewrite (handle_message_steps json_dumps api_ok generate json_loads format_value).
    destruct (out event); [lia|].
    destruct (fst (Database.add_message json_dumps (db b) (id event) (chat_id event)
                     (sender_id event) (text event) (date event) None)); [|lia].
    cbv zeta.
    destruct (fst (Ollama.analyze_text generate json_loads (ollama_client b) (text event)))
      as [analysis|]; simpl; [|lia].
    destruct (Py.truthy analysis); simpl; [|lia].
    rewrite WikiFacts.edit_page_saved_length.
    destruct (fst (Wiki.edit_page api_ok (wiki_client b) _ _ true)); lia.
Qed.

Lemma handle_message_touches_one_message_witness :
  2 <> id (Scenario.message_of 1 (Some "hello"))
  /\ Database.filter_by_message_id 2
       (db (Main.handle_message Scenario.dumps Scenario.wiki_up Scenario.titled_service
              Scenario.loads Scenario.no_format Scenario.fresh_bot
              (Scenario.message_of 1 (Some "hello"))))
     = Database.filter_by_message_id 2 (db Scenario.fresh_bot).
Proof.
  assert (H : 2 <> id (Scenario.message_of 1 (Some "hello"))) by discriminate.
  split; [exact H|].
  destruct (handle_message_touches_one_message Scenario.dumps Scenario.wiki_up
              Scenario.titled_service Scenario.loads Scenario.no_format
              Scenario.fresh_bot (Scenario.message_of 1 (Some "hello")))
    as [_ [Hrows _]].
  exact (Hrows 2 H).
Defined.

Lemma append_cancel_l (p a b : string) : p ++ a = p ++ b -> a = b.
Proof.
  induction p as [|x p IH]; intros H; [exact H|].
  rewrite !PyMore.append_cons in H. injection H as H. now apply IH.
Qed.

Lemma to_int_printable (n : Z) :
  Z.to_int n <> Decimal.Pos Decimal.Nil /\ Z.to_int n <> Decimal.Neg Decimal.Nil.
Proof.
  destruct n as [|p|p]; simpl; split; try discriminate;
    intros [= H]; now apply (DecimalPos.Unsigned.to_uint_nonnil p).
Qed.

(** X21: The default titles of two different messages are different, so that
    two messages whose analysis gives no title are never published on the
    same page; the id can be read back from the default title. *)
Theorem default_title_injective (mid mid' : Z) :
  mid <> mid' -> default_title mid <> default_title mid'.
Proof.
  intros Hne E. apply Hne. unfold default_title, Py.str_of_int in E.
  apply append_cancel_l in E.
  destruct (to_int_printable mid) as [P N], (to_int_printable mid') as [P' N'].
  pose proof (NilZero.isi (Z.to_int mid) P N) as R.
  pose proof (NilZero.isi (Z.to_int mid') P' N') as R'.
  rewrite E in R. rewrite R' in R. injection R as R.
  rewrite <- (DecimalZ.of_to mid), <- (DecimalZ.of_to mid'). now rewrite R.
Qed.

Lemma default_title_injective_witness :
  7 <> 70 /\ default_title 7 <> default_title 70.
Proof.
  assert (H : 7 <> 70) by discriminate.
  split; [exact H | exact (default_title_injective 7 70 H)].
Defined.

(** ** The history loop over any conversation *)

Lemma filter_all (A : Type) (f : A -> bool) (l : list A) :
  (forall x, In x l -> f x = true) -> List.filter f l = l.
Proof.
  induction l as [|a l IH]; intros H; simpl; [reflexivity|].
  rewrite (H a) by now left. f_equal. apply IH. intros x Hx. apply H. now right.
Qed.

Lemma filter_none (A : Type) (f : A -> bool) (l : list A) :
  (forall x, In x l -> f x = false) -> List.filter f l = [].
Proof.
  induction l as [|a l IH]; intros H; simpl; [reflexivity|].
  rewrite (H a) by now left. apply IH. intros x Hx. apply H. now right.
Qed.

Lemma sorted_around (before after : list TgMessage) (m : TgMessage) :
  StronglySorted (fun newer older => id older < id newer) (before ++ m :: after)%list ->
  (forall x, In x before -> id m < id x) /\ (forall y, In y after -> id y < id m).
Proof.
  induction before as [|a before IH]; simpl; intros H.
  - apply StronglySorted_inv in H. destruct H as [_ H].
    split; [intros x []|]. intros y Hy.
    now apply (proj1 (List.Forall_forall _ _) H).
  - apply StronglySorted_inv in H. destruct H as [Hs Ha].
    destruct (IH Hs) as [Hb Hafter]. split; [|exact Hafter].
    intros x [<-|Hx]; [|now apply Hb].
    apply (proj1 (List.Forall_forall _ _) Ha). apply List.in_or_app. right. now left.
Qed.

(** In a conversation kept newest first, the messages older than a
    message are those that follow it. *)
Lemma older_messages (before after : list TgMessage) (m : TgMessage) :
  newest_first (before ++ m :: after)%list ->
  List.filter (fun x => (id m =? 0) || (id x <? id m)) (before ++ m :: after)%list
  = after.
Proof.
  intros [Hs Hp]. destruct (sorted_around before after m Hs) as [Hb Ha].
  assert (Hm : 0 < id m).
  { apply (proj1 (List.Forall_forall _ _) Hp). apply List.in_or_app. right. now left. }
  assert (E0 : (id m =? 0) = false) by (apply Z.eqb_neq; lia).
  rewrite List.filter_app. simpl. rewrite E0. simpl.
  rewrite Z.ltb_irrefl.
  rewrite filter_none, filter_all; [reflexivity | |].
  - intros y Hy. apply Z.ltb_lt. now apply Ha.
  - intros x Hx. apply Z.ltb_ge. apply Hb in Hx. lia.
Qed.

Lemma last_cons (A : Type) (l : list A) : forall a d, List.last (a :: l) d = List.last l a.
Proof.
  induction l as [|b l IH]; intros a d; [reflexivity|].
  change (List.last (a :: b :: l) d) with (List.last (b :: l) d).
  rewrite (IH b d). symmetry. apply (IH b a).
Qed.

Lemma sorted_ids_NoDup (conversation : list TgMessage) :
  StronglySorted (fun newer older => id older < id newer) conversation ->
  List.NoDup (map id conversation).
Proof.
  induction conversation as [|a l IH]; intros H; simpl; [constructor|].
  apply StronglySorted_inv in H. destruct H as [Hs Ha].
  constructor; [|now apply IH].
  intros Hin. apply List.in_map_iff in Hin. destruct Hin as [x [E Hx]].
  apply (proj1 (List.Forall_forall _ _) Ha) in Hx. lia.
Qed.

Lemma scan_step (get_messages : nat -> Z -> Z -> option (list TgMessage))
    (fuel n : nat) (offset_id : Z) :
  Main.scan get_messages (S fuel) n offset_id
  = match get_messages n limit offset_id with
    | None => Some [(offset_id, None)]
    | Some [] => Some [(offset_id, Some [])]
    | Some (first :: rest) =>
        option_map (cons (offset_id, Some (first :: rest)))
          (Main.scan get_messages fuel (S n) (id (List.last rest first)))
    end.
Proof.
  simpl. destruct (get_messages n limit offset_id) as [[|first rest]|]; reflexivity.
Qed.

(** The requests over a conversation kept newest first: from a cursor
    below which the messages [rest] remain, the scan returns when it has
    more fuel than there are messages left, and it goes through [rest]
    in order. *)
Lemma scan_conversation (conversation : list TgMessage) (fuel : nat) :
  newest_first conversation ->
  forall n offset_id seen rest,
    conversation = (seen ++ rest)%list ->
    List.filter (fun m => (offset_id =? 0) || (id m <? offset_id)) conversation = rest ->
    (length rest < fuel)%nat ->
    exists run,
      Main.scan (conversation_page conversation) fuel n offset_id = Some run
      /\ run_ids run = map id rest.
Proof.
  intros Hnf. induction fuel as [|fuel IH]; intros n offset_id seen rest Hc Hf Hlen;
    [lia|].
  rewrite scan_step.
  assert (Ea : conversation_page conversation n limit offset_id
               = Some (firstn (S 99) rest)).
  { unfold conversation_page. now rewrite Hf. }
  rewrite Ea. clear Ea.
  destruct rest as [|x rest]; simpl firstn.
  - eexists. split; reflexivity.
  - cbv beta iota. set (page := x :: firstn 99 rest).
    assert (Hpage : (page ++ skipn 99 rest = x :: rest)%list).
    { unfold page. simpl. f_equal. apply List.firstn_skipn. }
    assert (Hlast : page = (removelast page ++ [List.last (firstn 99 rest) x])%list).
    { rewrite <- (last_cons _ (firstn 99 rest) x x).
      apply List.app_removelast_last. discriminate. }
    assert (Hconv : conversation
                    = ((seen ++ removelast page)
                         ++ List.last (firstn 99 rest) x :: skipn 99 rest)%list).
    { rewrite Hc, <- Hpage. rewrite Hlast at 1.
      now rewrite <- !List.app_assoc. }
    destruct (IH (S n) (id (List.last (firstn 99 rest) x))
                (seen ++ page)%list (skipn 99 rest)) as [run [Hrun Hids]].
    + rewrite Hc, <- Hpage. now rewrite List.app_assoc.
    + rewrite Hconv. apply older_messages. now rewrite <- Hconv.
    + rewrite List.length_skipn. simpl in Hlen. lia.
    + rewrite Hrun. simpl. eexists. split; [reflexivity|].
      unfold run_ids in *. simpl. rewrite Hids.
      rewrite <- List.map_app. f_equal.
      rewrite <- (List.firstn_skipn 99 rest) at 3. reflexivity.
Qed.



End MainMore.
